(** * TransducerTrainer: the train and eval steps of the RNN-Transducer runner

    A shallow embedding of [tiramisu_asr/runners/transducer_runners.py].

    The class is glue over a machine-learning framework.  Its collaborators
    (the network, the RNNT loss kernel, the optimizer, the base trainer) are
    not part of the file, so they are taken as the fields of two classes,
    [Opaque] (their types) and [Collaborators] (their operations).  What the
    class itself does - which collaborator is called, with which arguments,
    in which order, and what is stored on [self] - is written out as a
    computation in a state-and-exception monad that also records every call
    that leaves the class.

    The steps are written twice.  [_train_step] and [_eval_step] take the
    framework's own operations ([//], the average, loss scaling, the tape's
    gradient, the metric's update) as what their documentation says they
    compute; [_train_step_raising] and [_eval_step_raising] take them as
    collaborators that can raise (class [Library]), and [raising_steps_agree]
    relates the two.  [compile] is written with every call able to raise.

    Numbers that take part in arithmetic are exact rationals ([Qc]): the
    statements below are about the computation the code describes, not about
    float32 rounding, except where the float32 metric ([Mean32]) is named.
    The [tf.function] decorators change how the steps are executed, not what
    they compute, and are left out; [__init__] only stores [text_featurizer]
    and [is_mixed_precision], which are fields of [Trainer]. *)

From Stdlib Require Import ZArith QArith Qcanon List String Lia Field.
From Stdlib Require Import Floats.SpecFloat.
From stdpp Require Import gmap strings.
Import ListNotations.

(** ** Results and exceptions *)

Inductive Result (E A : Type) : Type :=
| Ok (a : A)
| Raise (e : E).
Arguments Ok {E A} a.
Arguments Raise {E A} e.

(** ** Tensors that a gradient tape tracks

    A scalar computed under [tf.GradientTape] is kept with its derivative
    with respect to each trainable variable of the model: that row is what
    [tape.gradient(target, variables)] reads off afterwards. *)

Record Tracked : Type := {
  value : Qc;
  wrt_variables : list Qc
}.

Definition Qc_sum (l : list Qc) : Qc := fold_right Qcplus 0%Qc l.

(** Pointwise sum of two rows; a shorter row counts as padded with zeros. *)
Fixpoint row_add (a b : list Qc) : list Qc :=
  match a, b with
  | [], _ => b
  | _, [] => a
  | x :: a', y :: b' => (x + y)%Qc :: row_add a' b'
  end.

Definition row_sum (rows : list (list Qc)) : list Qc := fold_right row_add [] rows.

(** [tf.reduce_sum] of a vector of tracked scalars. *)
Definition reduce_sum (per_example : list Tracked) : Tracked :=
  {| value := Qc_sum (map value per_example);
     wrt_variables := row_sum (map wrt_variables per_example) |}.

(** [tf.nn.compute_average_loss(per_example_loss, global_batch_size=n)]:
    the sum of the per-example losses divided by the global batch size. *)
Definition compute_average_loss (per_example_loss : list Tracked) (global_batch_size : Z) : Tracked :=
  let s := reduce_sum per_example_loss in
  let n := Q2Qc (inject_Z global_batch_size) in
  {| value := (value s / n)%Qc;
     wrt_variables := map (fun g => (g / n)%Qc) (wrt_variables s) |}.

(** [tape.gradient(target, sources)]: one coefficient per source. *)
Definition tape_gradient (target : Tracked) (sources : list Qc) : list Qc :=
  wrt_variables target.

(** [a // b] on an integer tensor and a Python integer.  [Z.div] rounds
    towards minus infinity, as [//] does.  A zero divisor is an error of the
    framework; statements that depend on the quotient assume a positive one. *)
Definition floordiv (a : list Z) (b : Z) : list Z := map (fun x => (x / b)%Z) a.

(** ** [tf.keras.metrics.Mean] *)

Inductive DType : Type := float16 | float32 | float64.

Record Mean : Type := {
  mean_name : string;
  mean_dtype : DType;
  mean_total : Qc;
  mean_count : Qc
}.

(** [tf.keras.metrics.Mean(name, dtype=dtype)]: a fresh running mean. *)
Definition Mean_init (name : string) (dtype : DType) : Mean :=
  {| mean_name := name; mean_dtype := dtype; mean_total := 0%Qc; mean_count := 0%Qc |}.

(** [Mean.update_state(values)]: add the values to the total and their
    number to the count.  Here the additions are exact; the float32 metric
    of the program is written out further down ([update_state32]). *)
Definition update_state (m : Mean) (values : list Qc) : Mean :=
  {| mean_name := mean_name m;
     mean_dtype := mean_dtype m;
     mean_total := (mean_total m + Qc_sum values)%Qc;
     mean_count := (mean_count m + Q2Qc (inject_Z (Z.of_nat (length values))))%Qc |}.

(** [Mean.result()]: total over count ([div_no_nan]: zero when empty). *)
Definition result (m : Mean) : Qc := (mean_total m / mean_count m)%Qc.

(** The mean of a list of numbers, for comparison with [result]. *)
Definition mean_of (values : list Qc) : Qc :=
  (Qc_sum values / Q2Qc (inject_Z (Z.of_nat (length values))))%Qc.

(** ** The running mean as the program keeps it, in float32

    [update_state] and [result] above add and divide exactly.  The metric of
    the program is created with [dtype=tf.float32]: its total and its count
    are float32 variables, and every addition and the final division round
    to the nearest float32, ties to even.  Floats are the Standard Library's
    [spec_float] at precision 24 and maximal exponent 128. *)

Definition float32_add : spec_float -> spec_float -> spec_float := SFadd 24 128.
Definition float32_div : spec_float -> spec_float -> spec_float := SFdiv 24 128.

(** The float32 nearest to an integer. *)
Definition float32_of_Z (n : Z) : spec_float := binary_normalize 24 128 n 0 false.

(** The float32 nearest to a rational: its numerator divided by its
    denominator, rounded once. *)
Definition float32_of_Qc (q : Qc) : spec_float :=
  match Qnum q with
  | Z0 => S754_zero false
  | Zpos n => float32_div (S754_finite false n 0) (S754_finite false (Qden q) 0)
  | Zneg n => float32_div (S754_finite true n 0) (S754_finite false (Qden q) 0)
  end.

(** The rational a finite float stands for. *)
Definition Qc_of_float32 (x : spec_float) : option Qc :=
  match x with
  | S754_zero _ => Some 0%Qc
  | S754_finite sign m e =>
      Some (Q2Qc (inject_Z (if sign then Zneg m else Zpos m) * Qpower 2 e))
  | _ => None
  end.

Record Mean32 : Type := {
  total32 : spec_float;
  count32 : spec_float
}.

Definition Mean32_init : Mean32 :=
  {| total32 := S754_zero false; count32 := S754_zero false |}.

(** [tf.reduce_sum] of a float32 vector, added up from the left. *)
Definition reduce_sum32 (values : list spec_float) : spec_float :=
  fold_left float32_add values (S754_zero false).

(** [Mean.update_state(values)]: [total.assign_add(reduce_sum(values))] and
    [count.assign_add(size(values))], both in float32. *)
Definition update_state32 (m : Mean32) (values : list spec_float) : Mean32 :=
  {| total32 := float32_add (total32 m) (reduce_sum32 values);
     count32 := float32_add (count32 m) (float32_of_Z (Z.of_nat (length values))) |}.

(** [Mean.result()]: [div_no_nan(total, count)]. *)
Definition result32 (m : Mean32) : spec_float :=
  match count32 m with
  | S754_zero _ => S754_zero false
  | _ => float32_div (total32 m) (count32 m)
  end.

(** ** Optimizers *)

(** An optimizer is a Keras optimizer, or
    [mixed_precision.LossScaleOptimizer(opt, loss_scale)] around one: the
    wrapper keeps the wrapped optimizer, the loss-scale policy it was built
    with and the current scale. *)
Inductive Optimizer (K : Type) : Type :=
| Keras (opt : K)
| LossScaleOptimizer (opt : Optimizer K) (loss_scale : string) (current_scale : Qc).
Arguments Keras {K} opt.
Arguments LossScaleOptimizer {K} opt loss_scale current_scale.

(** The scale a dynamic policy starts with, 2^15. *)
Definition initial_loss_scale : Qc := Q2Qc (inject_Z (2 ^ 15)).

Definition mixed_precision_LossScaleOptimizer {K : Type} (opt : Optimizer K) (loss_scale : string)
  : Optimizer K :=
  LossScaleOptimizer opt loss_scale initial_loss_scale.

(** [LossScaleOptimizer.get_scaled_loss(loss)]: the loss times the scale. *)
Definition get_scaled_loss (scale : Qc) (loss : Tracked) : Tracked :=
  {| value := (value loss * scale)%Qc;
     wrt_variables := map (fun g => (g * scale)%Qc) (wrt_variables loss) |}.

(** [LossScaleOptimizer.get_unscaled_gradients(grads)]: every gradient times
    the reciprocal of the scale. *)
Definition get_unscaled_gradients (scale : Qc) (grads : list Qc) : list Qc :=
  map (fun g => (g * (1 / scale))%Qc) grads.

(** ** The collaborators' types *)

Class Opaque : Type := {
  (** a tensor whose contents the trainer never inspects *)
  Tensor : Type;
  (** an exception raised inside the framework *)
  FrameworkError : Type;
  (** the layers of a [Transducer] *)
  Layers : Type;
  (** a Keras optimizer ([tf.keras.optimizers.get] returns one) *)
  KerasOptimizer : Type;
  (** what [compile] is given as [optimizer: any] *)
  OptimizerSpec : Type;
  Dataset : Type;
  Strategy : Type;
  (** the attributes that [BaseTrainer] keeps on [self] *)
  BaseAttributes : Type
}.

(** ** The objects the trainer holds *)

Section Objects.
Context {O : Opaque}.

(** Exceptions a step can end with: one raised inside the framework, or one
    of Python's own for a missing dictionary key, a missing attribute or a
    local variable read before assignment. *)
Inductive Exception : Type :=
| FromFramework (e : FrameworkError)
| KeyError (key : string)
| AttributeError (attribute : string)
| UnboundLocalError (variable : string).

(** The part of [TextFeaturizer] the trainer reads. *)
Record TextFeaturizer : Type := {
  blank : Z
}.

(** The part of [Transducer] the trainer reads: the network, the factor by
    which its encoder shortens the time axis, and its trainable variables. *)
Record Transducer : Type := {
  layers : Layers;
  time_reduction_factor : Z;
  trainable_variables : list Qc
}.

Definition assign_variables (m : Transducer) (values : list Qc) : Transducer :=
  {| layers := layers m;
     time_reduction_factor := time_reduction_factor m;
     trainable_variables := values |}.

(** [self]: the attributes of a [TransducerTrainer].  [model] and
    [optimizer] exist only once [compile] has run. *)
Record Trainer : Type := {
  base : BaseAttributes;
  text_featurizer : TextFeaturizer;
  is_mixed_precision : bool;
  train_metrics : gmap string Mean;
  eval_metrics : gmap string Mean;
  model : option Transducer;
  optimizer : option (Optimizer KerasOptimizer)
}.

Definition with_train_metrics (v : gmap string Mean) (t : Trainer) : Trainer :=
  {| base := base t; text_featurizer := text_featurizer t;
     is_mixed_precision := is_mixed_precision t;
     train_metrics := v; eval_metrics := eval_metrics t;
     model := model t; optimizer := optimizer t |}.

Definition with_eval_metrics (v : gmap string Mean) (t : Trainer) : Trainer :=
  {| base := base t; text_featurizer := text_featurizer t;
     is_mixed_precision := is_mixed_precision t;
     train_metrics := train_metrics t; eval_metrics := v;
     model := model t; optimizer := optimizer t |}.

Definition with_model (v : option Transducer) (t : Trainer) : Trainer :=
  {| base := base t; text_featurizer := text_featurizer t;
     is_mixed_precision := is_mixed_precision t;
     train_metrics := train_metrics t; eval_metrics := eval_metrics t;
     model := v; optimizer := optimizer t |}.

Definition with_optimizer (v : option (Optimizer KerasOptimizer)) (t : Trainer) : Trainer :=
  {| base := base t; text_featurizer := text_featurizer t;
     is_mixed_precision := is_mixed_precision t;
     train_metrics := train_metrics t; eval_metrics := eval_metrics t;
     model := model t; optimizer := v |}.

(** A batch, as the data loader yields it:
    [(paths, features, input_length, labels, label_length, pred_inp)]. *)
Definition Batch : Type := (Tensor * Tensor * list Z * Tensor * Tensor * Tensor)%type.

Definition features_of (batch : Batch) : Tensor :=
  let '(_, features, _, _, _, _) := batch in features.
Definition input_length_of (batch : Batch) : list Z :=
  let '(_, _, input_length, _, _, _) := batch in input_length.
Definition labels_of (batch : Batch) : Tensor :=
  let '(_, _, _, labels, _, _) := batch in labels.
Definition label_length_of (batch : Batch) : Tensor :=
  let '(_, _, _, _, label_length, _) := batch in label_length.
Definition pred_inp_of (batch : Batch) : Tensor :=
  let '(_, _, _, _, _, pred_inp) := batch in pred_inp.

(** Which of the two metric dictionaries a call touches. *)
Inductive MetricSet : Type := TrainMetrics | EvalMetrics.

(** Every call that leaves the class, with its arguments. *)
Inductive Call : Type :=
| GradientTape_enter
| GradientTape_exit
| model_call_ (inputs : Tensor * Tensor) (training : bool)
| tape_watch_ (tensor : Tensor)
| rnnt_loss_ (logits labels label_length : Tensor) (logit_length : list Z) (blank : Z)
| compute_average_loss_ (per_example_loss : list Tracked) (global_batch_size : Z)
| get_scaled_loss_ (loss : Tracked)
| tape_gradient_ (target : Tracked) (sources : list Qc)
| get_unscaled_gradients_ (grads : list Qc)
| apply_gradients_ (grads_and_vars : list (Qc * Qc))
| update_state_ (metrics : MetricSet) (key : string) (values : list Qc)
| strategy_scope_enter (s : Strategy)
| strategy_scope_exit (s : Strategy)
| model_summary_ (line_length : Z)
| optimizers_get_ (identifier : OptimizerSpec)
| LossScaleOptimizer_ (opt : Optimizer KerasOptimizer) (loss_scale : string)
| create_checkpoint_manager_ (max_to_keep : Z) (model : Transducer)
    (optimizer : Optimizer KerasOptimizer)
| set_train_data_loader_ (train_dataset : Dataset)
| set_eval_data_loader_ (eval_dataset : option Dataset) (eval_train_ratio : Z)
| load_checkpoint_
| run_
| floordiv_ (a : list Z) (b : Z).

(** What running a method body on a trainer gives: how it ends (a value or
    an exception), the trainer it leaves behind, and the calls it made,
    oldest first.  What was changed before an exception stays changed. *)
Record Run (A : Type) : Type := {
  outcome : Result Exception A;
  after : Trainer;
  made : list Call
}.
Arguments outcome {A} _.
Arguments after {A} _.
Arguments made {A} _.

Definition M (A : Type) : Type := Trainer -> Run A.

Definition ret {A : Type} (a : A) : M A :=
  fun t => {| outcome := Ok a; after := t; made := [] |}.

Definition raise {A : Type} (e : Exception) : M A :=
  fun t => {| outcome := Raise e; after := t; made := [] |}.

Definition bind {A B : Type} (m : M A) (k : A -> M B) : M B :=
  fun t =>
    match m t with
    | {| outcome := Ok a; after := t'; made := cs |} =>
        match k a t' with
        | {| outcome := r; after := t''; made := cs' |} =>
            {| outcome := r; after := t''; made := cs ++ cs' |}
        end
    | {| outcome := Raise e; after := t'; made := cs |} =>
        {| outcome := Raise e; after := t'; made := cs |}
    end.

Definition gets {A : Type} (f : Trainer -> A) : M A := fun t => ret (f t) t.

Definition modify (f : Trainer -> Trainer) : M unit :=
  fun t => {| outcome := Ok tt; after := f t; made := [] |}.

Definition call (c : Call) : M unit :=
  fun t => {| outcome := Ok tt; after := t; made := [c] |}.

(** A call into the framework that may raise there. *)
Definition framework {A : Type} (c : Call) (r : Result FrameworkError A) : M A :=
  fun t =>
    {| outcome := match r with Ok a => Ok a | Raise e => Raise (FromFramework e) end;
       after := t;
       made := [c] |}.

(** [with cm: body]: the context is left also when the body raises, and the
    exception goes on to the caller. *)
Definition with_ {A : Type} (enter leave : Call) (body : M A) : M A :=
  fun t =>
    match body t with
    | {| outcome := r; after := t'; made := cs |} =>
        {| outcome := r; after := t'; made := enter :: cs ++ [leave] |}
    end.

(** Reading an attribute that exists only after [compile]. *)
Definition attribute {A : Type} (name : string) (f : Trainer -> option A) : M A :=
  fun t =>
    match f t with
    | Some a => ret a t
    | None => raise (AttributeError name) t
    end.

(** Reading a local variable that only one branch assigns. *)
Definition local {A : Type} (name : string) (v : option A) : M A :=
  match v with
  | Some a => ret a
  | None => raise (UnboundLocalError name)
  end.

End Objects.

Arguments outcome {O A} _.
Arguments after {O A} _.
Arguments made {O A} _.

Declare Scope trainer_scope.
Delimit Scope trainer_scope with trainer.
Notation "x <- m ;; k" := (bind m (fun x => k))
  (at level 100, m at next level, right associativity) : trainer_scope.
Notation "m ;; k" := (bind m (fun _ => k))
  (at level 100, right associativity) : trainer_scope.

(** ** The collaborators' operations *)

Class Collaborators {O : Opaque} : Type := {
  (** [model(inputs, training=flag)]: the network applied to
      [[features, pred_inp]] at the current values of its variables. *)
  model_call : Layers -> list Qc -> Tensor * Tensor -> bool -> Result FrameworkError Tensor;
  (** [rnnt_loss(logits, labels, label_length, logit_length, blank)]: one
      tracked loss per example of the batch. *)
  rnnt_loss : Tensor -> Tensor -> Tensor -> list Z -> Z -> Result FrameworkError (list Tracked);
  (** [tf.keras.optimizers.get(identifier)] *)
  optimizers_get : OptimizerSpec -> Result FrameworkError KerasOptimizer;
  (** [optimizer.apply_gradients(grads_and_vars)]: the new values of the
      variables, in order, and the optimizer after the update. *)
  apply_gradients : Optimizer KerasOptimizer -> list (Qc * Qc) ->
                    Result FrameworkError (list Qc * Optimizer KerasOptimizer);
  (** attributes and methods of [BaseTrainer] *)
  strategy : BaseAttributes -> Strategy;
  global_batch_size : BaseAttributes -> Z;
  create_checkpoint_manager :
    Z -> Transducer -> Optimizer KerasOptimizer -> Trainer -> Result Exception unit * Trainer;
  set_train_data_loader : Dataset -> Trainer -> Result Exception unit * Trainer;
  set_eval_data_loader : option Dataset -> Z -> Trainer -> Result Exception unit * Trainer;
  load_checkpoint : Trainer -> Result Exception unit * Trainer;
  run : Trainer -> Result Exception unit * Trainer
}.

(** ** TransducerTrainer *)

Section TransducerTrainer.
Context {O : Opaque} {C : Collaborators}.
Local Open Scope trainer_scope.
Local Open Scope string_scope.

(** A method of [BaseTrainer] called on [self]. *)
Definition base_method (c : Call) (f : Trainer -> Result Exception unit * Trainer) : M unit :=
  fun t => let (r, t') := f t in {| outcome := r; after := t'; made := [c] |}.

(** [self.model(inputs, training=flag)] *)
Definition self_model (inputs : Tensor * Tensor) (training : bool) : M Tensor :=
  m <- attribute "model" model ;;
  framework (model_call_ inputs training)
            (model_call (layers m) (trainable_variables m) inputs training).

(** [rnnt_loss(logits=, labels=, label_length=, logit_length=, blank=)] *)
Definition rnnt (logits labels label_length : Tensor) (logit_length : list Z) (blank : Z)
  : M (list Tracked) :=
  framework (rnnt_loss_ logits labels label_length logit_length blank)
            (rnnt_loss logits labels label_length logit_length blank).

(** [tf.nn.compute_average_loss(per_example_loss, global_batch_size=)] *)
Definition average (per_example_loss : list Tracked) (global_batch_size : Z) : M Tracked :=
  call (compute_average_loss_ per_example_loss global_batch_size) ;;
  ret (compute_average_loss per_example_loss global_batch_size).

(** The current scale of [self.optimizer], for a method that only a
    [LossScaleOptimizer] has. *)
Definition optimizer_scale (method : string) : M Qc :=
  o <- attribute "optimizer" optimizer ;;
  match o with
  | LossScaleOptimizer _ _ scale => ret scale
  | Keras _ => raise (AttributeError method)
  end.

(** [self.optimizer.get_scaled_loss(loss)] *)
Definition optimizer_get_scaled_loss (loss : Tracked) : M Tracked :=
  scale <- optimizer_scale "get_scaled_loss" ;;
  call (get_scaled_loss_ loss) ;;
  ret (get_scaled_loss scale loss).

(** [self.optimizer.get_unscaled_gradients(grads)] *)
Definition optimizer_get_unscaled_gradients (grads : list Qc) : M (list Qc) :=
  scale <- optimizer_scale "get_unscaled_gradients" ;;
  call (get_unscaled_gradients_ grads) ;;
  ret (get_unscaled_gradients scale grads).

(** [tape.gradient(target, self.model.trainable_variables)] *)
Definition gradient (target : Tracked) : M (list Qc) :=
  m <- attribute "model" model ;;
  call (tape_gradient_ target (trainable_variables m)) ;;
  ret (tape_gradient target (trainable_variables m)).

(** [self.optimizer.apply_gradients(zip(gradients, self.model.trainable_variables))]:
    the optimizer writes the new values into the model's variables. *)
Definition optimizer_apply_gradients (gradients : list Qc) : M unit :=
  o <- attribute "optimizer" optimizer ;;
  m <- attribute "model" model ;;
  let grads_and_vars := zip gradients (trainable_variables m) in
  r <- framework (apply_gradients_ grads_and_vars) (apply_gradients o grads_and_vars) ;;
  modify (fun t => with_optimizer (Some (snd r)) (with_model (Some (assign_variables m (fst r))) t)).

Definition metrics_of (which : MetricSet) (t : Trainer) : gmap string Mean :=
  match which with
  | TrainMetrics => train_metrics t
  | EvalMetrics => eval_metrics t
  end.

Definition with_metrics (which : MetricSet) (v : gmap string Mean) (t : Trainer) : Trainer :=
  match which with
  | TrainMetrics => with_train_metrics v t
  | EvalMetrics => with_eval_metrics v t
  end.

(** [metrics[key].update_state(losses)] *)
Definition metric_update_state (which : MetricSet) (key : string) (losses : list Tracked) : M unit :=
  metrics <- gets (metrics_of which) ;;
  match metrics !! key with
  | None => raise (KeyError key)
  | Some m =>
      call (update_state_ which key (map value losses)) ;;
      modify (with_metrics which (<[key := update_state m (map value losses)]> metrics))
  end.

Definition set_train_metrics : M unit :=
  modify (with_train_metrics
            {[ "transducer_loss" := Mean_init "train_transducer_loss" float32 ]}).

Definition set_eval_metrics : M unit :=
  modify (with_eval_metrics
            {[ "transducer_loss" := Mean_init "eval_transducer_loss" float32 ]}).

Definition _train_step (batch : Batch) : M unit :=
  let '(_, features, input_length, labels, label_length, pred_inp) := batch in
  locals <- with_ GradientTape_enter GradientTape_exit (
    logits <- self_model (features, pred_inp) true ;;
    call (tape_watch_ logits) ;;
    m <- attribute "model" model ;;
    featurizer <- gets text_featurizer ;;
    per_train_loss <- rnnt logits labels label_length
                        (floordiv input_length (time_reduction_factor m))
                        (blank featurizer) ;;
    batch_size <- gets (fun t => global_batch_size (base t)) ;;
    train_loss <- average per_train_loss batch_size ;;
    mixed <- gets is_mixed_precision ;;
    if (mixed : bool) then
      scaled_train_loss <- optimizer_get_scaled_loss train_loss ;;
      ret (per_train_loss, train_loss, Some scaled_train_loss)
    else
      ret (per_train_loss, train_loss, None)) ;;
  let '(per_train_loss, train_loss, scaled_train_loss) := locals in
  mixed <- gets is_mixed_precision ;;
  gradients <- (if (mixed : bool) then
                  scaled_train_loss <- local "scaled_train_loss" scaled_train_loss ;;
                  scaled_gradients <- gradient scaled_train_loss ;;
                  optimizer_get_unscaled_gradients scaled_gradients
                else
                  gradient train_loss) ;;
  optimizer_apply_gradients gradients ;;
  metric_update_state TrainMetrics "transducer_loss" per_train_loss.

Definition _eval_step (batch : Batch) : M unit :=
  let '(_, features, input_length, labels, label_length, pred_inp) := batch in
  logits <- self_model (features, pred_inp) false ;;
  m <- attribute "model" model ;;
  featurizer <- gets text_featurizer ;;
  eval_loss <- rnnt logits labels label_length
                 (floordiv input_length (time_reduction_factor m))
                 (blank featurizer) ;;
  metric_update_state EvalMetrics "transducer_loss" eval_loss.

Definition fit (train_dataset : Dataset) (eval_dataset : option Dataset) (eval_train_ratio : Z)
  : M unit :=
  base_method (set_train_data_loader_ train_dataset) (set_train_data_loader train_dataset) ;;
  base_method (set_eval_data_loader_ eval_dataset eval_train_ratio)
              (set_eval_data_loader eval_dataset eval_train_ratio) ;;
  base_method load_checkpoint_ load_checkpoint ;;
  base_method run_ run.

End TransducerTrainer.

(** ** The framework's own operations, able to raise

    Above, the operations of the framework that the steps use between the
    model, the loss kernel and the optimizer are written out as what their
    documentation says they compute.  Each of them is a call into the
    framework and can raise there (integer [//] by zero, a loss of the wrong
    rank, a metric fed a tensor it cannot cast).  Here they are collaborators
    too, together with the three that [compile] uses: entering the
    strategy's scope, [model.summary] (a model that was never built has
    none) and the constructor of [LossScaleOptimizer] (which refuses some
    optimizers). *)

Class Library {O : Opaque} : Type := {
  (** [strategy.scope()] being entered *)
  tf_scope : Strategy -> Result FrameworkError unit;
  (** [model.summary(line_length=n)] *)
  tf_summary : Transducer -> Z -> Result FrameworkError unit;
  (** the checks [mixed_precision.LossScaleOptimizer(opt, loss_scale)] makes
      on its arguments *)
  tf_LossScaleOptimizer : Optimizer KerasOptimizer -> string -> Result FrameworkError unit;
  (** [a // b] on an integer tensor *)
  tf_floordiv : list Z -> Z -> Result FrameworkError (list Z);
  (** [tape.watch(tensor)] *)
  tf_tape_watch : Tensor -> Result FrameworkError unit;
  (** [tf.nn.compute_average_loss(per_example_loss, global_batch_size=n)] *)
  tf_compute_average_loss : list Tracked -> Z -> Result FrameworkError Tracked;
  (** [get_scaled_loss(loss)] of a [LossScaleOptimizer] at its current scale *)
  tf_get_scaled_loss : Qc -> Tracked -> Result FrameworkError Tracked;
  (** [tape.gradient(target, sources)] *)
  tf_tape_gradient : Tracked -> list Qc -> Result FrameworkError (list Qc);
  (** [get_unscaled_gradients(grads)] of a [LossScaleOptimizer] at its
      current scale *)
  tf_get_unscaled_gradients : Qc -> list Qc -> Result FrameworkError (list Qc);
  (** [metric.update_state(values)]: the metric afterwards *)
  tf_update_state : Mean -> list Qc -> Result FrameworkError Mean
}.

Section Raising.
Context {O : Opaque} {C : Collaborators} {L : Library}.
Local Open Scope trainer_scope.
Local Open Scope string_scope.

(** [with cm: body] when entering the context can raise: then the body is
    not run and the context is not left. *)
Definition within {A : Type} (enter : Call) (entered : Result FrameworkError unit)
    (leave : Call) (body : M A) : M A :=
  fun t =>
    match entered with
    | Ok _ => with_ enter leave body t
    | Raise e => {| outcome := Raise (FromFramework e); after := t; made := [enter] |}
    end.

(** [mixed_precision.LossScaleOptimizer(opt, loss_scale)]: the wrapper, when
    the constructor accepts its arguments. *)
Definition new_LossScaleOptimizer (opt : Optimizer KerasOptimizer) (loss_scale : string)
  : Result FrameworkError (Optimizer KerasOptimizer) :=
  match tf_LossScaleOptimizer opt loss_scale with
  | Ok _ => Ok (mixed_precision_LossScaleOptimizer opt loss_scale)
  | Raise e => Raise e
  end.

Definition compile (model_ : Transducer) (optimizer_ : OptimizerSpec) (max_to_keep : Z) : M unit :=
  scope <- gets (fun t => strategy (base t)) ;;
  within (strategy_scope_enter scope) (tf_scope scope) (strategy_scope_exit scope) (
    modify (with_model (Some model_)) ;;
    m <- attribute "model" model ;;
    framework (model_summary_ 100) (tf_summary m 100) ;;
    opt <- framework (optimizers_get_ optimizer_) (optimizers_get optimizer_) ;;
    modify (with_optimizer (Some (Keras opt))) ;;
    mixed <- gets is_mixed_precision ;;
    if (mixed : bool) then
      current <- attribute "optimizer" optimizer ;;
      wrapped <- framework (LossScaleOptimizer_ current "dynamic")
                           (new_LossScaleOptimizer current "dynamic") ;;
      modify (with_optimizer (Some wrapped))
    else
      ret tt) ;;
  m <- attribute "model" model ;;
  o <- attribute "optimizer" optimizer ;;
  base_method (create_checkpoint_manager_ max_to_keep m o)
              (create_checkpoint_manager max_to_keep m o).

(** [self.optimizer.get_scaled_loss(loss)] *)
Definition optimizer_get_scaled_loss_raising (loss : Tracked) : M Tracked :=
  scale <- optimizer_scale "get_scaled_loss" ;;
  framework (get_scaled_loss_ loss) (tf_get_scaled_loss scale loss).

(** [self.optimizer.get_unscaled_gradients(grads)] *)
Definition optimizer_get_unscaled_gradients_raising (grads : list Qc) : M (list Qc) :=
  scale <- optimizer_scale "get_unscaled_gradients" ;;
  framework (get_unscaled_gradients_ grads) (tf_get_unscaled_gradients scale grads).

(** [tape.gradient(target, self.model.trainable_variables)] *)
Definition gradient_raising (target : Tracked) : M (list Qc) :=
  m <- attribute "model" model ;;
  framework (tape_gradient_ target (trainable_variables m))
            (tf_tape_gradient target (trainable_variables m)).

(** [metrics[key].update_state(losses)] *)
Definition metric_update_state_raising (which : MetricSet) (key : string)
    (losses : list Tracked) : M unit :=
  metrics <- gets (metrics_of which) ;;
  match metrics !! key with
  | None => raise (KeyError key)
  | Some m =>
      m' <- framework (update_state_ which key (map value losses))
                      (tf_update_state m (map value losses)) ;;
      modify (with_metrics which (<[key := m']> metrics))
  end.

(** The train step once more, statement by statement as above, with every
    operation of the framework able to raise. *)
Definition _train_step_raising (batch : Batch) : M unit :=
  let '(_, features, input_length, labels, label_length, pred_inp) := batch in
  locals <- with_ GradientTape_enter GradientTape_exit (
    logits <- self_model (features, pred_inp) true ;;
    framework (tape_watch_ logits) (tf_tape_watch logits) ;;
    m <- attribute "model" model ;;
    logit_length <- framework (floordiv_ input_length (time_reduction_factor m))
                              (tf_floordiv input_length (time_reduction_factor m)) ;;
    featurizer <- gets text_featurizer ;;
    per_train_loss <- rnnt logits labels label_length logit_length (blank featurizer) ;;
    batch_size <- gets (fun t => global_batch_size (base t)) ;;
    train_loss <- framework (compute_average_loss_ per_train_loss batch_size)
                            (tf_compute_average_loss per_train_loss batch_size) ;;
    mixed <- gets is_mixed_precision ;;
    if (mixed : bool) then
      scaled_train_loss <- optimizer_get_scaled_loss_raising train_loss ;;
      ret (per_train_loss, train_loss, Some scaled_train_loss)
    else
      ret (per_train_loss, train_loss, None)) ;;
  let '(per_train_loss, train_loss, scaled_train_loss) := locals in
  mixed <- gets is_mixed_precision ;;
  gradients <- (if (mixed : bool) then
                  scaled_train_loss <- local "scaled_train_loss" scaled_train_loss ;;
                  scaled_gradients <- gradient_raising scaled_train_loss ;;
                  optimizer_get_unscaled_gradients_raising scaled_gradients
                else
                  gradient_raising train_loss) ;;
  optimizer_apply_gradients gradients ;;
  metric_update_state_raising TrainMetrics "transducer_loss" per_train_loss.

(** The eval step, likewise. *)
Definition _eval_step_raising (batch : Batch) : M unit :=
  let '(_, features, input_length, labels, label_length, pred_inp) := batch in
  logits <- self_model (features, pred_inp) false ;;
  m <- attribute "model" model ;;
  logit_length <- framework (floordiv_ input_length (time_reduction_factor m))
                            (tf_floordiv input_length (time_reduction_factor m)) ;;
  featurizer <- gets text_featurizer ;;
  eval_loss <- rnnt logits labels label_length logit_length (blank featurizer) ;;
  metric_update_state_raising EvalMetrics "transducer_loss" eval_loss.

(** The exception a result carries, if it is one. *)
Definition exception_of {A : Type} (r : Result FrameworkError A) : option FrameworkError :=
  match r with
  | Ok _ => None
  | Raise e => Some e
  end.

(** What a call of a step raises on a trainer, if it raises: the answer of
    the collaborator to the arguments the call records, with the model, the
    optimizer and the metric taken from the trainer. *)
Definition raised (t : Trainer) (c : Call) : option FrameworkError :=
  match c with
  | model_call_ inputs training =>
      match model t with
      | Some m => exception_of (model_call (layers m) (trainable_variables m) inputs training)
      | None => None
      end
  | tape_watch_ tensor => exception_of (tf_tape_watch tensor)
  | floordiv_ a b => exception_of (tf_floordiv a b)
  | rnnt_loss_ logits labels label_length logit_length blank =>
      exception_of (rnnt_loss logits labels label_length logit_length blank)
  | compute_average_loss_ per_example_loss n =>
      exception_of (tf_compute_average_loss per_example_loss n)
  | get_scaled_loss_ loss =>
      match optimizer t with
      | Some (LossScaleOptimizer _ _ scale) => exception_of (tf_get_scaled_loss scale loss)
      | _ => None
      end
  | tape_gradient_ target sources => exception_of (tf_tape_gradient target sources)
  | get_unscaled_gradients_ grads =>
      match optimizer t with
      | Some (LossScaleOptimizer _ _ scale) => exception_of (tf_get_unscaled_gradients scale grads)
      | _ => None
      end
  | apply_gradients_ grads_and_vars =>
      match optimizer t with
      | Some o => exception_of (apply_gradients o grads_and_vars)
      | None => None
      end
  | update_state_ which key values =>
      match metrics_of which t !! key with
      | Some m => exception_of (tf_update_state m values)
      | None => None
      end
  | _ => None
  end.

(** The library computes what its documentation says: the operations return
    the values written out above ([//] for a divisor that is not zero). *)
Definition as_documented : Prop :=
  (forall a b, b <> 0%Z -> tf_floordiv a b = Ok (floordiv a b)) /\
  (forall tensor, tf_tape_watch tensor = Ok tt) /\
  (forall per n, tf_compute_average_loss per n = Ok (compute_average_loss per n)) /\
  (forall scale loss, tf_get_scaled_loss scale loss = Ok (get_scaled_loss scale loss)) /\
  (forall target sources, tf_tape_gradient target sources = Ok (tape_gradient target sources)) /\
  (forall scale grads,
     tf_get_unscaled_gradients scale grads = Ok (get_unscaled_gradients scale grads)) /\
  (forall m values, tf_update_state m values = Ok (update_state m values)).

(** A record without its [//] calls, which the steps above do not record. *)
Definition without_floordiv (cs : list Call) : list Call :=
  List.filter (fun c => match c with floordiv_ _ _ => false | _ => true end) cs.

End Raising.

(** ** What a method does, seen from outside *)

Section Observations.
Context {O : Opaque} {C : Collaborators}.

(** The arguments of the [apply_gradients] calls in a record. *)
Definition applied_gradients (cs : list Call) : list (list (Qc * Qc)) :=
  flat_map (fun c => match c with apply_gradients_ gv => [gv] | _ => [] end) cs.

(** The arguments of the [rnnt_loss] calls in a record:
    [(logits, labels, label_length, logit_length, blank)]. *)
Definition rnnt_loss_calls (cs : list Call) : list (Tensor * Tensor * Tensor * list Z * Z) :=
  flat_map (fun c => match c with
                     | rnnt_loss_ logits labels label_length logit_length blank =>
                         [(logits, labels, label_length, logit_length, blank)]
                     | _ => []
                     end) cs.

(** The arguments of the model calls in a record. *)
Definition model_calls (cs : list Call) : list (Tensor * Tensor * bool) :=
  flat_map (fun c => match c with
                     | model_call_ inputs training => [(inputs.1, inputs.2, training)]
                     | _ => []
                     end) cs.

(** A call that computes or applies a gradient. *)
Definition touches_gradients (c : Call) : bool :=
  match c with
  | GradientTape_enter | GradientTape_exit | tape_watch_ _ | tape_gradient_ _ _
  | get_scaled_loss_ _ | get_unscaled_gradients_ _ | apply_gradients_ _ => true
  | _ => false
  end.

Definition with_is_mixed_precision (v : bool) (t : Trainer) : Trainer :=
  {| base := base t; text_featurizer := text_featurizer t;
     is_mixed_precision := v;
     train_metrics := train_metrics t; eval_metrics := eval_metrics t;
     model := model t; optimizer := optimizer t |}.

(** The optimizer is a [LossScaleOptimizer]. *)
Definition scales_loss (o : Optimizer KerasOptimizer) : bool :=
  match o with
  | LossScaleOptimizer _ _ _ => true
  | Keras _ => false
  end.

(** A trainer as [compile] and the two metric setters leave it: model and
    optimizer are there, both dictionaries have the loss metric, and under
    mixed precision the optimizer scales the loss. *)
Definition ready (t : Trainer) : Prop :=
  is_Some (model t) /\
  is_Some (train_metrics t !! "transducer_loss"%string) /\
  is_Some (eval_metrics t !! "transducer_loss"%string) /\
  exists o, optimizer t = Some o /\ (is_mixed_precision t = true -> scales_loss o = true).

(** The gradients [_train_step] hands to the optimizer once the loss of the
    batch is known: of the average itself, or of the scaled average and then
    unscaled. *)
Definition step_gradients (t : Trainer) (o : Optimizer KerasOptimizer) (m : Transducer)
    (per_train_loss : list Tracked) : list Qc :=
  let train_loss := compute_average_loss per_train_loss (global_batch_size (base t)) in
  match is_mixed_precision t, o with
  | true, LossScaleOptimizer _ _ scale =>
      get_unscaled_gradients scale
        (tape_gradient (get_scaled_loss scale train_loss) (trainable_variables m))
  | _, _ => tape_gradient train_loss (trainable_variables m)
  end.

(** The driver's loop: one step per batch, until a step raises. *)
Fixpoint steps (step : Batch -> M unit) (batches : list Batch) : M unit :=
  match batches with
  | [] => ret tt
  | b :: bs => bind (step b) (fun _ => steps step bs)
  end.

(** The per-example losses of one batch on a trainer: what the loss kernel
    returns for the logits of the model ([[]] if either raises). *)
Definition losses (training : bool) (t : Trainer) (batch : Batch) : list Qc :=
  let '(_, features, input_length, labels, label_length, pred_inp) := batch in
  match model t with
  | Some m =>
      match model_call (layers m) (trainable_variables m) (features, pred_inp) training with
      | Ok logits =>
          match rnnt_loss logits labels label_length
                  (floordiv input_length (time_reduction_factor m))
                  (blank (text_featurizer t)) with
          | Ok per => map value per
          | Raise _ => []
          end
      | Raise _ => []
      end
  | None => []
  end.

(** All per-example losses met while the loop runs over the batches, each
    batch on the trainer that the steps before it left. *)
Fixpoint losses_seen (training : bool) (step : Batch -> M unit) (t : Trainer)
    (batches : list Batch) : list Qc :=
  match batches with
  | [] => []
  | b :: bs => losses training t b ++ losses_seen training step (after (step b t)) bs
  end.

(** Rounding a quotient up, for comparison with [floordiv]. *)
Definition ceildiv (a b : Z) : Z := (- ((- a) / b))%Z.

End Observations.

(** ** A small instance

    A framework with integer tensors, a model that adds its two inputs (and
    one more in training, and raises on negative features), a loss kernel
    with one loss per utterance, and plain gradient descent; a base trainer
    whose methods do nothing.  The statements below are instantiated on it. *)

Module Sample.

#[export] Instance opaque : Opaque := {|
  Tensor := Z;
  FrameworkError := string;
  Layers := unit;
  KerasOptimizer := nat;
  OptimizerSpec := string;
  Dataset := list (Z * Z * list Z * Z * Z * Z);
  Strategy := unit;
  BaseAttributes := Z
|}.

Definition Qc_of_Z (z : Z) : Qc := Q2Qc (inject_Z z).

Definition sample_model (_ : unit) (variables : list Qc) (inputs : Z * Z) (training : bool)
  : Result string Z :=
  if (inputs.1 <? 0)%Z
  then Raise "features: negative"
  else Ok (if training then inputs.1 + inputs.2 + 1 else inputs.1 + inputs.2)%Z.

Definition sample_rnnt_loss (logits labels label_length : Z) (logit_length : list Z) (blank : Z)
  : Result string (list Tracked) :=
  Ok (map (fun n => {| value := Qc_of_Z (logits + n);
                       wrt_variables := [Qc_of_Z n; Qc_of_Z 1] |}) logit_length).

(** Plain gradient descent on the trainable variables. *)
Definition descend (gradients variables : list Qc) : list Qc :=
  map (fun gv => (gv.2 - gv.1)%Qc) (zip gradients variables).

Definition sample_apply_gradients (o : Optimizer nat) (grads_and_vars : list (Qc * Qc))
  : Result string (list Qc * Optimizer nat) :=
  Ok (map (fun gv => (gv.2 - gv.1)%Qc) grads_and_vars, o).

Definition nothing (t : @Trainer opaque) : Result (@Exception opaque) unit * @Trainer opaque :=
  (Ok tt, t).

#[export] Instance collaborators : @Collaborators opaque := {|
  model_call := sample_model;
  rnnt_loss := sample_rnnt_loss;
  optimizers_get := fun _ => Ok 0%nat;
  apply_gradients := sample_apply_gradients;
  strategy := fun _ => tt;
  global_batch_size := fun b => b;
  create_checkpoint_manager := fun _ _ _ => nothing;
  set_train_data_loader := fun _ => nothing;
  set_eval_data_loader := fun _ _ => nothing;
  load_checkpoint := nothing;
  run := nothing
|}.

Definition network : Transducer :=
  {| layers := tt; time_reduction_factor := 4; trainable_variables := [Qc_of_Z 3; Qc_of_Z 5] |}.

Definition metric : Mean := Mean_init "m" float32.

(** A trainer right after construction: no model, no optimizer, no metric. *)
Definition bare (mixed : bool) : Trainer :=
  {| base := 2%Z;
     text_featurizer := {| blank := 0 |};
     is_mixed_precision := mixed;
     train_metrics := ∅;
     eval_metrics := ∅;
     model := None;
     optimizer := None |}.

(** A trainer after [compile] and the two metric setters. *)
Definition trainer (mixed : bool) : Trainer :=
  {| base := 2%Z;
     text_featurizer := {| blank := 0 |};
     is_mixed_precision := mixed;
     train_metrics := {[ "transducer_loss"%string := metric ]};
     eval_metrics := {[ "transducer_loss"%string := metric ]};
     model := Some network;
     optimizer := Some (if mixed
                        then mixed_precision_LossScaleOptimizer (Keras 0%nat) "dynamic"
                        else Keras 0%nat) |}.

Definition batch1 : Batch := (0, 10, [9; 8], 20, 2, 30)%Z.
Definition batch2 : Batch := (1, 11, [12; 5], 21, 2, 31)%Z.
Definition bad_batch : Batch := (2, -1, [4], 22, 1, 32)%Z.

(** What the loss kernel returns for [batch1]: the logits are 41 in training
    and 40 in evaluation, the logit lengths are [[2; 2]]. *)
Definition losses1 (logits : Z) : list Tracked :=
  [ {| value := Qc_of_Z (logits + 2); wrt_variables := [Qc_of_Z 2; Qc_of_Z 1] |};
    {| value := Qc_of_Z (logits + 2); wrt_variables := [Qc_of_Z 2; Qc_of_Z 1] |} ].

End Sample.

(** ** The shape of a run *)

Section Shape.
Context {O : Opaque}.

(** A call of the forward pass: made while the gradient tape records. *)
Definition recorded_on_tape (c : Call) : bool :=
  match c with
  | model_call_ _ _ | tape_watch_ _ | rnnt_loss_ _ _ _ _ _
  | compute_average_loss_ _ _ | get_scaled_loss_ _ => true
  | _ => false
  end.

(** A call of the backward pass and the update: made once the tape is closed. *)
Definition follows_tape (c : Call) : bool :=
  match c with
  | tape_gradient_ _ _ | get_unscaled_gradients_ _ | apply_gradients_ _
  | update_state_ TrainMetrics _ _ => true
  | _ => false
  end.

(** The rest of a record after the tape was opened: forward calls up to the
    closing of the tape, then calls of the backward pass and the update. *)
Fixpoint closes_tape (cs : list Call) : bool :=
  match cs with
  | [] => false
  | GradientTape_exit :: rest => forallb follows_tape rest
  | c :: rest => recorded_on_tape c && closes_tape rest
  end.

(** A record that opens the tape first and then goes on as above. *)
Definition tape_discipline (cs : list Call) : bool :=
  match cs with
  | GradientTape_enter :: rest => closes_tape rest
  | _ => false
  end.

(** The [update_state] calls in a record. *)
Definition metric_updates (cs : list Call) : list (MetricSet * string * list Qc) :=
  flat_map (fun c => match c with
                     | update_state_ which key values => [(which, key, values)]
                     | _ => []
                     end) cs.

(** [t'] differs from [t] at most in what [BaseTrainer] keeps. *)
Definition keeps_own_attributes (t t' : Trainer) : Prop :=
  text_featurizer t' = text_featurizer t /\
  is_mixed_precision t' = is_mixed_precision t /\
  train_metrics t' = train_metrics t /\
  eval_metrics t' = eval_metrics t /\
  model t' = model t /\
  optimizer t' = optimizer t.


(** The float32 metric fed what the steps feed theirs: after each batch, the
    per-example losses of that batch, as float32. *)
Fixpoint metric32_seen {C : Collaborators} (training : bool) (step : Batch -> M unit)
    (t : Trainer) (m : Mean32) (batches : list Batch) : Mean32 :=
  match batches with
  | [] => m
  | b :: bs =>
      metric32_seen training step (after (step b t))
        (update_state32 m (map float32_of_Qc (losses training t b))) bs
  end.

End Shape.

(** ** Corner cases on the small instance *)

Module Corners.
Import Sample.

(** Collaborators as in [Sample], but [tf.keras.optimizers.get] knows only
    "adam" and "sgd". *)
Definition strict : @Collaborators opaque := {|
  model_call := sample_model;
  rnnt_loss := sample_rnnt_loss;
  optimizers_get := fun name =>
    if decide (name = "adam"%string) then Ok 0%nat
    else if decide (name = "sgd"%string) then Ok 1%nat
    else Raise "Unknown optimizer"%string;
  apply_gradients := sample_apply_gradients;
  strategy := fun _ => tt;
  global_batch_size := fun b => b;
  create_checkpoint_manager := fun _ _ _ => nothing;
  set_train_data_loader := fun _ => nothing;
  set_eval_data_loader := fun _ _ => nothing;
  load_checkpoint := nothing;
  run := nothing
|}.

(** Compiled, but the metric setters have not run. *)
Definition without_metrics (mixed : bool) : Trainer :=
  with_eval_metrics ∅ (with_train_metrics ∅ (trainer mixed)).

(** Mixed precision switched on over an optimizer that was not wrapped. *)
Definition unwrapped : Trainer :=
  with_is_mixed_precision true (trainer false).

(** The framework's operations on the small instance: they compute what
    their documentation says, but [//] raises on a zero divisor, [summary]
    on a model without variables (one that was never built), and
    [LossScaleOptimizer] refuses the optimizer that "sgd" names. *)
#[export] Instance library : @Library opaque := {|
  tf_scope := fun _ => Ok tt;
  tf_summary := fun m _ =>
    match trainable_variables m with
    | [] => Raise "This model has not yet been built"%string
    | _ => Ok tt
    end;
  tf_LossScaleOptimizer := fun opt _ =>
    match opt with
    | Keras (S _) => Raise "LossScaleOptimizer does not support this optimizer"%string
    | _ => Ok tt
    end;
  tf_floordiv := fun a b =>
    if decide (b = 0%Z) then Raise "Integer division by zero"%string else Ok (floordiv a b);
  tf_tape_watch := fun _ => Ok tt;
  tf_compute_average_loss := fun per n => Ok (compute_average_loss per n);
  tf_get_scaled_loss := fun scale loss => Ok (get_scaled_loss scale loss);
  tf_tape_gradient := fun target sources => Ok (tape_gradient target sources);
  tf_get_unscaled_gradients := fun scale grads => Ok (get_unscaled_gradients scale grads);
  tf_update_state := fun m values => Ok (update_state m values)
|}.

(** A network that was never built. *)
Definition unbuilt : Transducer :=
  {| layers := tt; time_reduction_factor := 4; trainable_variables := [] |}.

(** A network whose encoder reports a time reduction factor of zero. *)
Definition degenerate : Trainer :=
  with_model (Some {| layers := tt; time_reduction_factor := 0;
                      trainable_variables := [Qc_of_Z 3; Qc_of_Z 5] |})
             (trainer false).

(** Four batches of one utterance each, whose losses in evaluation are
    2^24, 1, 1 and 2. *)
Definition rounding_batches : list Batch :=
  [ (0, 16777216, [0], 20, 1, 0)%Z;
    (1, 1, [0], 21, 1, 0)%Z;
    (2, 1, [0], 22, 1, 0)%Z;
    (3, 2, [0], 23, 1, 0)%Z ].

End Corners.

(** ** Properties *)

Section Properties.
Context {O : Opaque} {C : Collaborators} {L : Library}.
Local Open Scope string_scope.

Create HintDb trainer.
#[local] Hint Unfold _train_step _eval_step compile fit self_model
  rnnt average optimizer_scale optimizer_get_scaled_loss optimizer_get_unscaled_gradients
  gradient optimizer_apply_gradients metric_update_state base_method with_ framework
  attribute local bind ret raise gets modify call metrics_of with_metrics
  set_train_metrics set_eval_metrics : trainer.

#[local] Hint Unfold within new_LossScaleOptimizer optimizer_get_scaled_loss_raising
  optimizer_get_unscaled_gradients_raising gradient_raising metric_update_state_raising
  _train_step_raising _eval_step_raising : trainer.

(** Reduce the projections of a run and of the trainer's setters. *)
Ltac reduce :=
  cbn [outcome after made fst snd app
       with_model with_optimizer with_train_metrics with_eval_metrics
       with_is_mixed_precision
       model optimizer is_mixed_precision train_metrics eval_metrics base text_featurizer
       features_of input_length_of labels_of label_length_of pred_inp_of].

Ltac run := autounfold with trainer; reduce.

(** Run a method along the facts [tac] rewrites with. *)
Ltac along tac := run; repeat (progress (tac; reduce)).

(** Split on whatever the run is waiting for. *)
Ltac branch :=
  match goal with
  | |- context [match ?x with _ => _ end] =>
      lazymatch x with
      | context [match _ with _ => _ end] => fail
      | _ => destruct x eqn:?
      end
  | |- context [if ?x then _ else _] => destruct x eqn:?
  end.

Ltac branches := reduce; repeat (branch; reduce).

(** The train step on a trainer that is ready, when no collaborator raises. *)
Lemma train_step_run
    (t : Trainer) (paths features : Tensor) (input_length : list Z)
    (labels label_length pred_inp : Tensor)
    (m : Transducer) (o inner : Optimizer KerasOptimizer) (policy : string) (scale : Qc)
    (logits : Tensor) (per_train_loss : list Tracked)
    (new_values : list Qc) (o' : Optimizer KerasOptimizer) (metric : Mean) :
  model t = Some m ->
  optimizer t = Some o ->
  (is_mixed_precision t = true -> o = LossScaleOptimizer inner policy scale) ->
  train_metrics t !! "transducer_loss" = Some metric ->
  model_call (layers m) (trainable_variables m) (features, pred_inp) true = Ok logits ->
  rnnt_loss logits labels label_length (floordiv input_length (time_reduction_factor m))
    (blank (text_featurizer t)) = Ok per_train_loss ->
  let train_loss := compute_average_loss per_train_loss (global_batch_size (base t)) in
  let variables := trainable_variables m in
  let gradients :=
    if is_mixed_precision t
    then get_unscaled_gradients scale (tape_gradient (get_scaled_loss scale train_loss) variables)
    else tape_gradient train_loss variables in
  apply_gradients o (zip gradients variables) = Ok (new_values, o') ->
  _train_step (paths, features, input_length, labels, label_length, pred_inp) t =
  {| outcome := Ok tt;
     after :=
       with_train_metrics
         (<["transducer_loss" := update_state metric (map value per_train_loss)]>
            (train_metrics t))
         (with_optimizer (Some o') (with_model (Some (assign_variables m new_values)) t));
     made :=
       [GradientTape_enter;
        model_call_ (features, pred_inp) true;
        tape_watch_ logits;
        rnnt_loss_ logits labels label_length
          (floordiv input_length (time_reduction_factor m)) (blank (text_featurizer t));
        compute_average_loss_ per_train_loss (global_batch_size (base t))]
       ++ (if is_mixed_precision t then [get_scaled_loss_ train_loss] else [])
       ++ [GradientTape_exit]
       ++ (if is_mixed_precision t
           then [tape_gradient_ (get_scaled_loss scale train_loss) variables;
                 get_unscaled_gradients_
                   (tape_gradient (get_scaled_loss scale train_loss) variables)]
           else [tape_gradient_ train_loss variables])
       ++ [apply_gradients_ (zip gradients variables);
           update_state_ TrainMetrics "transducer_loss" (map value per_train_loss)] |}.
Proof.
  intros Hm Ho Hs Hk Hc Hl train_loss variables gradients Ha.
  subst gradients variables train_loss.
  destruct (is_mixed_precision t) eqn:Hmix.
  - rewrite (Hs eq_refl) in Ho, Ha.
    along ltac:(rewrite ?Hm, ?Hc, ?Hl, ?Ho, ?Hk, ?Hmix, ?Ha).
    reflexivity.
  - along ltac:(rewrite ?Hm, ?Hc, ?Hl, ?Ho, ?Hk, ?Hmix, ?Ha).
    reflexivity.
Qed.

(** The eval step when neither the model nor the loss kernel raises. *)
Lemma eval_step_run
    (t : Trainer) (paths features : Tensor) (input_length : list Z)
    (labels label_length pred_inp : Tensor)
    (m : Transducer) (logits : Tensor) (eval_loss : list Tracked) (metric : Mean) :
  model t = Some m ->
  eval_metrics t !! "transducer_loss" = Some metric ->
  model_call (layers m) (trainable_variables m) (features, pred_inp) false = Ok logits ->
  rnnt_loss logits labels label_length (floordiv input_length (time_reduction_factor m))
    (blank (text_featurizer t)) = Ok eval_loss ->
  _eval_step (paths, features, input_length, labels, label_length, pred_inp) t =
  {| outcome := Ok tt;
     after :=
       with_eval_metrics
         (<["transducer_loss" := update_state metric (map value eval_loss)]> (eval_metrics t))
         t;
     made :=
       [model_call_ (features, pred_inp) false;
        rnnt_loss_ logits labels label_length
          (floordiv input_length (time_reduction_factor m)) (blank (text_featurizer t));
        update_state_ EvalMetrics "transducer_loss" (map value eval_loss)] |}.
Proof.
  intros Hm Hk Hc Hl.
  along ltac:(rewrite ?Hm, ?Hc, ?Hl, ?Hk).
  reflexivity.
Qed.

(** C1: on a trainer that is ready, and when no collaborator raises, the
    train step calls the model on [(features, pred_inp)] in training mode,
    the loss kernel on the logits with the batch's labels and label lengths,
    the shortened input lengths and the featurizer's blank, averages the
    per-example losses over the global batch size, takes the gradient of the
    average (scaled and then unscaled under mixed precision) with respect to
    the trainable variables, has the optimizer apply it, and adds the
    per-example losses to the train metric - in this order. *)
Theorem train_step_pipeline
    (t : Trainer) (paths features : Tensor) (input_length : list Z)
    (labels label_length pred_inp : Tensor)
    (m : Transducer) (o inner : Optimizer KerasOptimizer) (policy : string) (scale : Qc)
    (logits : Tensor) (per_train_loss : list Tracked)
    (new_values : list Qc) (o' : Optimizer KerasOptimizer) (metric : Mean) :
  model t = Some m ->
  optimizer t = Some o ->
  (is_mixed_precision t = true -> o = LossScaleOptimizer inner policy scale) ->
  train_metrics t !! "transducer_loss" = Some metric ->
  model_call (layers m) (trainable_variables m) (features, pred_inp) true = Ok logits ->
  rnnt_loss logits labels label_length (floordiv input_length (time_reduction_factor m))
    (blank (text_featurizer t)) = Ok per_train_loss ->
  let train_loss := compute_average_loss per_train_loss (global_batch_size (base t)) in
  let variables := trainable_variables m in
  let gradients :=
    if is_mixed_precision t
    then get_unscaled_gradients scale (tape_gradient (get_scaled_loss scale train_loss) variables)
    else tape_gradient train_loss variables in
  apply_gradients o (zip gradients variables) = Ok (new_values, o') ->
  let r := _train_step (paths, features, input_length, labels, label_length, pred_inp) t in
  outcome r = Ok tt /\
  made r =
    ([GradientTape_enter;
     model_call_ (features, pred_inp) true;
     tape_watch_ logits;
     rnnt_loss_ logits labels label_length
       (floordiv input_length (time_reduction_factor m)) (blank (text_featurizer t));
     compute_average_loss_ per_train_loss (global_batch_size (base t))]
    ++ (if is_mixed_precision t then [get_scaled_loss_ train_loss] else [])
    ++ [GradientTape_exit]
    ++ (if is_mixed_precision t
        then [tape_gradient_ (get_scaled_loss scale train_loss) variables;
              get_unscaled_gradients_
                (tape_gradient (get_scaled_loss scale train_loss) variables)]
        else [tape_gradient_ train_loss variables])
    ++ [apply_gradients_ (zip gradients variables);
        update_state_ TrainMetrics "transducer_loss" (map value per_train_loss)])%list /\
  model (after r) = Some (assign_variables m new_values) /\
  optimizer (after r) = Some o' /\
  train_metrics (after r) =
    <["transducer_loss" := update_state metric (map value per_train_loss)]> (train_metrics t).
Proof.
  intros Hm Ho Hs Hk Hc Hl train_loss variables gradients Ha r.
  subst r.
  rewrite (train_step_run t paths features input_length labels label_length pred_inp
             m o inner policy scale logits per_train_loss new_values o' metric
             Hm Ho Hs Hk Hc Hl Ha).
  reduce. repeat split; reflexivity.
Qed.


(** C3: whatever happens in it, the eval step leaves the model, the
    optimizer and every other attribute but [eval_metrics] as they were; it
    makes no call that computes or applies a gradient, and calls the model
    with [training=False] only.  When it returns, it has called the model,
    then the loss kernel, then [update_state] on the eval metric, and that
    metric is the only thing that changed. *)
Theorem eval_step_frame (t : Trainer) (batch : Batch) :
  let r := _eval_step batch t in
  model (after r) = model t /\
  optimizer (after r) = optimizer t /\
  after r = with_eval_metrics (eval_metrics (after r)) t /\
  Forall (fun c => touches_gradients c = false) (made r) /\
  Forall (fun c => c.2 = false) (model_calls (made r)) /\
  (outcome r = Ok tt ->
   exists m logits eval_loss metric,
     model t = Some m /\
     model_call (layers m) (trainable_variables m) (features_of batch, pred_inp_of batch) false
       = Ok logits /\
     rnnt_loss logits (labels_of batch) (label_length_of batch)
       (floordiv (input_length_of batch) (time_reduction_factor m))
       (blank (text_featurizer t)) = Ok eval_loss /\
     eval_metrics t !! "transducer_loss" = Some metric /\
     made r =
       [model_call_ (features_of batch, pred_inp_of batch) false;
        rnnt_loss_ logits (labels_of batch) (label_length_of batch)
          (floordiv (input_length_of batch) (time_reduction_factor m))
          (blank (text_featurizer t));
        update_state_ EvalMetrics "transducer_loss" (map value eval_loss)] /\
     eval_metrics (after r) =
       <["transducer_loss" := update_state metric (map value eval_loss)]> (eval_metrics t)).
Proof.
  destruct batch as [[[[[paths features] input_length] labels] label_length] pred_inp].
  destruct t as [b f mixed tm em mo oo].
  cbv zeta. run. branches.
  all: repeat split; try reflexivity; try discriminate.
  all: repeat constructor.
  intros _; do 4 eexists; repeat split; first [eassumption | reflexivity].
Qed.


(** Unscaling undoes scaling, whatever the scale, as long as it is not zero. *)
Lemma unscaled_scaled_gradient (scale : Qc) (loss : Tracked) (sources : list Qc) :
  scale <> 0%Qc ->
  get_unscaled_gradients scale (tape_gradient (get_scaled_loss scale loss) sources)
  = tape_gradient loss sources.
Proof.
  intros Hs. unfold get_unscaled_gradients, tape_gradient, get_scaled_loss. cbn [wrt_variables].
  rewrite List.map_map. rewrite <- (List.map_id (wrt_variables loss)) at 2.
  apply List.map_ext. intros g. field. exact Hs.
Qed.

(** Read the calls of a given kind off a record. *)
Ltac observe := cbn [applied_gradients rnnt_loss_calls model_calls flat_map app fst snd].

(** C2: with a loss-scaling optimizer whose scale is not zero, the train
    step hands the optimizer the same gradients under mixed precision
    (scale the loss, differentiate, unscale) as it does without (differentiate
    the loss); when model and loss kernel return, these are the gradients of
    the average loss itself. *)
Theorem loss_scaling_preserves_gradients
    (t : Trainer) (batch : Batch) (inner : Optimizer KerasOptimizer) (policy : string)
    (scale : Qc) :
  optimizer t = Some (LossScaleOptimizer inner policy scale) ->
  scale <> 0%Qc ->
  applied_gradients (made (_train_step batch (with_is_mixed_precision true t)))
  = applied_gradients (made (_train_step batch (with_is_mixed_precision false t))) /\
  (forall m logits per_train_loss,
     model t = Some m ->
     model_call (layers m) (trainable_variables m) (features_of batch, pred_inp_of batch) true
       = Ok logits ->
     rnnt_loss logits (labels_of batch) (label_length_of batch)
       (floordiv (input_length_of batch) (time_reduction_factor m))
       (blank (text_featurizer t)) = Ok per_train_loss ->
     applied_gradients (made (_train_step batch (with_is_mixed_precision true t)))
     = [zip (tape_gradient
               (compute_average_loss per_train_loss (global_batch_size (base t)))
               (trainable_variables m))
            (trainable_variables m)]).
Proof.
  intros Ho Hs.
  destruct batch as [[[[[paths features] input_length] labels] label_length] pred_inp].
  destruct t as [b f mixed tm em mo oo]. cbn [optimizer] in Ho. subst oo.
  split.
  - run. branches; observe; rewrite ?unscaled_scaled_gradient by exact Hs; reflexivity.
  - intros m logits per Hm Hc Hl. cbn [model] in Hm. subst mo.
    cbn [features_of input_length_of labels_of label_length_of pred_inp_of
         text_featurizer base] in Hc, Hl.
    along ltac:(rewrite ?Hc, ?Hl).
    branches; observe; rewrite ?unscaled_scaled_gradient by exact Hs; reflexivity.
Qed.


(** C4: when the strategy's scope is entered, [model.summary] and
    [tf.keras.optimizers.get] return and, under mixed precision, the
    constructor of [LossScaleOptimizer] accepts the optimizer, [compile]
    stores the model and an optimizer that is the one returned, wrapped in a
    dynamic [LossScaleOptimizer] exactly when [is_mixed_precision] holds; it
    does so inside the strategy's scope, and then has the base trainer create
    the checkpoint manager over that model and that optimizer with the given
    [max_to_keep].  If creating the manager leaves the optimizer alone, that
    optimizer is the trainer's after [compile]. *)
Theorem compile_wraps_optimizer
    (t : Trainer) (model_ : Transducer) (optimizer_ : OptimizerSpec) (max_to_keep : Z)
    (opt : KerasOptimizer) :
  tf_scope (strategy (base t)) = Ok tt ->
  tf_summary model_ 100 = Ok tt ->
  optimizers_get optimizer_ = Ok opt ->
  (is_mixed_precision t = true -> tf_LossScaleOptimizer (Keras opt) "dynamic" = Ok tt) ->
  let chosen :=
    if is_mixed_precision t
    then mixed_precision_LossScaleOptimizer (Keras opt) "dynamic"
    else Keras opt in
  let compiled := with_optimizer (Some chosen) (with_model (Some model_) t) in
  let manager := create_checkpoint_manager max_to_keep model_ chosen compiled in
  let r := compile model_ optimizer_ max_to_keep t in
  (scales_loss chosen = true <-> is_mixed_precision t = true) /\
  outcome r = manager.1 /\
  after r = manager.2 /\
  made r =
    ([strategy_scope_enter (strategy (base t));
      model_summary_ 100;
      optimizers_get_ optimizer_]
     ++ (if is_mixed_precision t then [LossScaleOptimizer_ (Keras opt) "dynamic"] else [])
     ++ [strategy_scope_exit (strategy (base t));
         create_checkpoint_manager_ max_to_keep model_ chosen])%list /\
  ((forall t', optimizer (create_checkpoint_manager max_to_keep model_ chosen t').2
               = optimizer t') ->
   optimizer (after r) = Some chosen).
Proof.
  intros Hscope Hsummary Hget Hwrap chosen compiled manager r.
  subst r manager compiled chosen.
  destruct t as [b f mixed tm em mo oo].
  cbn [base is_mixed_precision] in Hscope, Hwrap.
  along ltac:(rewrite ?Hscope, ?Hsummary, ?Hget).
  destruct mixed; reduce; rewrite ?(Hwrap eq_refl); reduce;
    cbv [with_optimizer with_model]; reduce;
    match goal with |- context [create_checkpoint_manager ?k ?m ?o ?s] =>
      pose proof (eq_refl (create_checkpoint_manager k m o s)) as Hccm;
      destruct (create_checkpoint_manager k m o s) as [res t'] in Hccm at 2 |- *
    end;
    reduce; cbn [scales_loss mixed_precision_LossScaleOptimizer];
    (repeat split; try reflexivity; try discriminate);
    intros H;
    match type of Hccm with create_checkpoint_manager _ _ _ ?s = _ => specialize (H s) end;
    rewrite Hccm in H; exact H.
Qed.

(** See what a call raises, with the facts at hand. *)
Ltac read_raised :=
  cbn [raised exception_of metrics_of model optimizer train_metrics eval_metrics];
  repeat match goal with
         | H : ?r = _ |- context [?r] => rewrite H
         end;
  cbn [exception_of].

Ltac read_raised_in H :=
  cbn [raised exception_of metrics_of model optimizer train_metrics eval_metrics] in H;
  repeat match goal with
         | H' : ?r = _ |- _ =>
             tryif constr_eq H' H then fail
             else match type of H with context [r] => rewrite H' in H end
         end;
  cbn [exception_of] in H.

(** Find the call of a record that raised. *)
Ltac find_raiser :=
  first [ apply Exists_cons_hd; read_raised; reflexivity
        | apply Exists_cons_tl; find_raiser ].

(** No call of a record raised anything but what the run ended with. *)
Ltac none_raised H :=
  repeat (apply Exists_cons in H; destruct H as [H | H];
          [read_raised_in H; first [discriminate H | injection H as <-; reflexivity] |]);
  apply Exists_nil in H; destruct H.

(** C5: on a trainer that is ready, and with every call into the framework
    able to raise, a step ends with an exception exactly when one of the
    calls it made raised, and the exception it ends with is the one that was
    raised: the step catches none, changes none and raises none of its
    own. *)
Theorem steps_raise_what_calls_raise (t : Trainer) (batch : Batch) :
  ready t ->
  (forall x, outcome (_train_step_raising batch t) = Raise x <->
             exists e, x = FromFramework e /\
                       Exists (fun c => raised t c = Some e)
                              (made (_train_step_raising batch t))) /\
  (forall x, outcome (_eval_step_raising batch t) = Raise x <->
             exists e, x = FromFramework e /\
                       Exists (fun c => raised t c = Some e)
                              (made (_eval_step_raising batch t))).
Proof.
  intros ([m Hm] & [tmetric Htm] & [emetric Hem] & o & Ho & Hs).
  destruct batch as [[[[[paths features] input_length] labels] label_length] pred_inp].
  destruct t as [b f mixed tm em mo oo].
  cbn [model optimizer is_mixed_precision train_metrics eval_metrics] in Hm, Htm, Hem, Ho, Hs.
  subst mo oo.
  split; intros x; run; branches.
  all: try (specialize (Hs eq_refl); discriminate).
  all: try congruence.
  all: split; [intros H | intros (err & -> & H)].
  all: try discriminate H.
  all: try (none_raised H; fail).
  all: injection H as <-; eexists; (split; [reflexivity |]); find_raiser.
Qed.

(** [//] by a positive factor rounds down: the quotient times the factor
    does not exceed the dividend, and misses it by less than the factor. *)
Lemma floordiv_bounds (n factor : Z) :
  (0 < factor)%Z ->
  (factor * (n / factor) <= n < factor * (n / factor + 1))%Z.
Proof.
  intros Hf.
  pose proof (Z.div_mod n factor ltac:(lia)) as Hdm.
  pose proof (Z.mod_pos_bound n factor Hf) as Hb.
  lia.
Qed.

(** When the factor does not divide the dividend, rounding down gives one
    less than rounding up. *)
Lemma floordiv_below_ceildiv (n factor : Z) :
  (0 < factor)%Z ->
  (n mod factor <> 0)%Z ->
  (n / factor = ceildiv n factor - 1)%Z.
Proof.
  intros Hf Hr. unfold ceildiv.
  rewrite Z.div_opp_l_nz by lia. lia.
Qed.

(** C8: in both steps the [logit_length] given to the loss kernel is the
    batch's [input_length] floor-divided by the model's time reduction
    factor; for a positive factor every entry times the factor stays at or
    below the input length, and where the factor does not divide the input
    length the entry is one less than the quotient rounded up: the remainder
    frames are dropped. *)
Theorem logit_length_is_floor (t : Trainer) (batch : Batch) (m : Transducer) :
  model t = Some m ->
  (0 < time_reduction_factor m)%Z ->
  let factor := time_reduction_factor m in
  let logit_length := floordiv (input_length_of batch) factor in
  Forall (fun c => c.1.2 = logit_length) (rnnt_loss_calls (made (_train_step batch t))) /\
  Forall (fun c => c.1.2 = logit_length) (rnnt_loss_calls (made (_eval_step batch t))) /\
  (forall logits,
     model_call (layers m) (trainable_variables m) (features_of batch, pred_inp_of batch) true
       = Ok logits ->
     rnnt_loss_calls (made (_train_step batch t))
     = [(logits, labels_of batch, label_length_of batch, logit_length,
         blank (text_featurizer t))]) /\
  (forall logits,
     model_call (layers m) (trainable_variables m) (features_of batch, pred_inp_of batch) false
       = Ok logits ->
     rnnt_loss_calls (made (_eval_step batch t))
     = [(logits, labels_of batch, label_length_of batch, logit_length,
         blank (text_featurizer t))]) /\
  Forall2 (fun n q =>
             (factor * q <= n < factor * (q + 1))%Z /\
             ((n mod factor <> 0)%Z -> (factor * q < n)%Z /\ q = (ceildiv n factor - 1)%Z))
          (input_length_of batch) logit_length.
Proof.
  intros Hm Hf factor logit_length. subst factor logit_length.
  destruct batch as [[[[[paths features] input_length] labels] label_length] pred_inp].
  destruct t as [b f mixed tm em mo oo]. cbn [model] in Hm. subst mo.
  reduce.
  split; [| split; [| split; [| split]]].
  - run. branches; observe; repeat constructor.
  - run. branches; observe; repeat constructor.
  - intros logits Hc. along ltac:(rewrite ?Hc). branches; observe; reflexivity.
  - intros logits Hc. along ltac:(rewrite ?Hc). branches; observe; reflexivity.
  - unfold floordiv. induction input_length as [| n rest IH]; cbn [map]; constructor.
    + split; [apply floordiv_bounds; exact Hf |].
      intros Hr. split; [| apply floordiv_below_ceildiv; assumption].
      pose proof (Z.div_mod n (time_reduction_factor m) ltac:(lia)).
      pose proof (Z.mod_pos_bound n (time_reduction_factor m) Hf). lia.
    + exact IH.
Qed.

(** C9: on the same trainer and batch, when the model returns in both
    modes, each step calls the model once on [(features, pred_inp)] - the
    train step with [training=True], the eval step with [training=False] -
    and the loss kernel once, on the logits it got and otherwise the same
    arguments: the batch's labels and label lengths, the input lengths
    floor-divided by the time reduction factor, and the featurizer's blank. *)
Theorem steps_call_loss_alike
    (t : Trainer) (batch : Batch) (m : Transducer) (train_logits eval_logits : Tensor) :
  model t = Some m ->
  model_call (layers m) (trainable_variables m) (features_of batch, pred_inp_of batch) true
    = Ok train_logits ->
  model_call (layers m) (trainable_variables m) (features_of batch, pred_inp_of batch) false
    = Ok eval_logits ->
  let logit_length := floordiv (input_length_of batch) (time_reduction_factor m) in
  model_calls (made (_train_step batch t)) = [(features_of batch, pred_inp_of batch, true)] /\
  model_calls (made (_eval_step batch t)) = [(features_of batch, pred_inp_of batch, false)] /\
  rnnt_loss_calls (made (_train_step batch t))
  = [(train_logits, labels_of batch, label_length_of batch, logit_length,
      blank (text_featurizer t))] /\
  rnnt_loss_calls (made (_eval_step batch t))
  = [(eval_logits, labels_of batch, label_length_of batch, logit_length,
      blank (text_featurizer t))].
Proof.
  intros Hm Ht He logit_length. subst logit_length.
  destruct batch as [[[[[paths features] input_length] labels] label_length] pred_inp].
  destruct t as [b f mixed tm em mo oo]. cbn [model] in Hm. subst mo.
  cbn [features_of pred_inp_of] in Ht, He.
  reduce.
  repeat split.
  all: along ltac:(rewrite ?Ht, ?He); branches; observe; reflexivity.
Qed.

(** C10: [fit] calls, in this order and each on the trainer the one before
    left, [set_train_data_loader], [set_eval_data_loader], [load_checkpoint]
    and [run].  A call that raises ends [fit] there, so the calls made are
    always a prefix of the four, [run] is reached exactly when the three
    before it returned, and then [fit] ends as [run] does. *)
Theorem fit_order
    (t : Trainer) (train_dataset : Dataset) (eval_dataset : option Dataset)
    (eval_train_ratio : Z) :
  let r := fit train_dataset eval_dataset eval_train_ratio t in
  let four := [set_train_data_loader_ train_dataset;
               set_eval_data_loader_ eval_dataset eval_train_ratio;
               load_checkpoint_;
               run_] in
  let s1 := set_train_data_loader train_dataset t in
  let s2 := set_eval_data_loader eval_dataset eval_train_ratio s1.2 in
  let s3 := load_checkpoint s2.2 in
  let s4 := run s3.2 in
  made r `prefix_of` four /\
  (In run_ (made r) <-> s1.1 = Ok tt /\ s2.1 = Ok tt /\ s3.1 = Ok tt) /\
  (s1.1 = Ok tt -> s2.1 = Ok tt -> s3.1 = Ok tt ->
   made r = four /\ outcome r = s4.1 /\ after r = s4.2).
Proof.
  cbv zeta. run.
  destruct (set_train_data_loader train_dataset t) as [[[] | e1] t1]; reduce.
  2: { split; [exists [set_eval_data_loader_ eval_dataset eval_train_ratio; load_checkpoint_; run_];
                reflexivity |].
       split; [| intros; discriminate].
       split; [intros [H | []]; discriminate | intros (H & _); discriminate]. }
  destruct (set_eval_data_loader eval_dataset eval_train_ratio t1) as [[[] | e2] t2]; reduce.
  2: { split; [exists [load_checkpoint_; run_]; reflexivity |].
       split; [| intros; discriminate].
       split; [intros [H | [H | []]]; discriminate | intros (_ & H & _); discriminate]. }
  destruct (load_checkpoint t2) as [[[] | e3] t3]; reduce.
  2: { split; [exists [run_]; reflexivity |].
       split; [| intros; discriminate].
       split; [intros [H | [H | [H | []]]]; discriminate | intros (_ & _ & H); discriminate]. }
  destruct (run t3) as [res t4]; reduce.
  split; [exists []; reflexivity |].
  split; [| intros; repeat split; reflexivity].
  split; [intros _; repeat split; reflexivity | intros _; right; right; right; left; reflexivity].
Qed.


(** What a bind that returns went through. *)
Lemma bind_returns {A B : Type} (m : M A) (k : A -> M B) (t : Trainer) (b : B) :
  outcome (bind m k t) = Ok b ->
  exists a,
    outcome (m t) = Ok a /\
    outcome (k a (after (m t))) = Ok b /\
    after (bind m k t) = after (k a (after (m t))).
Proof.
  unfold bind. destruct (m t) as [[a | e] t' cs]; reduce; [| discriminate].
  destruct (k a t') as [r t'' cs'] eqn:Hk; reduce.
  intros ->. exists a. rewrite Hk. repeat split; reflexivity.
Qed.

Lemma Qc_sum_app (l1 l2 : list Qc) : Qc_sum (l1 ++ l2) = (Qc_sum l1 + Qc_sum l2)%Qc.
Proof.
  unfold Qc_sum. induction l1 as [| x l1 IH]; cbn [app fold_right].
  - ring.
  - rewrite IH. ring.
Qed.

Lemma Qc_of_length_app {A : Type} (l1 l2 : list A) :
  Q2Qc (inject_Z (Z.of_nat (length (l1 ++ l2))))
  = (Q2Qc (inject_Z (Z.of_nat (length l1))) + Q2Qc (inject_Z (Z.of_nat (length l2))))%Qc.
Proof.
  rewrite length_app, Nat2Z.inj_add.
  apply Qc_is_canon. unfold Qcplus, Q2Qc. cbn [this].
  rewrite !Qred_correct. rewrite inject_Z_plus. reflexivity.
Qed.

(** A train step that returns has added the batch's per-example losses to
    the train metric. *)
Lemma train_step_metric (t : Trainer) (batch : Batch) :
  outcome (_train_step batch t) = Ok tt ->
  exists metric,
    train_metrics t !! "transducer_loss" = Some metric /\
    train_metrics (after (_train_step batch t))
    = <["transducer_loss" := update_state metric (losses true t batch)]> (train_metrics t).
Proof.
  destruct batch as [[[[[paths features] input_length] labels] label_length] pred_inp].
  destruct t as [b f mixed tm em mo oo].
  unfold losses. run. branches; intros H; try discriminate.
  all: eexists; split; reflexivity.
Qed.

(** An eval step that returns has added the batch's per-example losses to
    the eval metric. *)
Lemma eval_step_metric (t : Trainer) (batch : Batch) :
  outcome (_eval_step batch t) = Ok tt ->
  exists metric,
    eval_metrics t !! "transducer_loss" = Some metric /\
    eval_metrics (after (_eval_step batch t))
    = <["transducer_loss" := update_state metric (losses false t batch)]> (eval_metrics t).
Proof.
  destruct batch as [[[[[paths features] input_length] labels] label_length] pred_inp].
  destruct t as [b f mixed tm em mo oo].
  unfold losses. run. branches; intros H; try discriminate.
  all: eexists; split; reflexivity.
Qed.

(** The invariant of the loop: the metric's total and count grow by the sum
    and the number of the losses seen. *)
Lemma steps_accumulate
    (training : bool) (step : Batch -> M unit) (metrics : Trainer -> gmap string Mean) :
  (forall t batch,
     outcome (step batch t) = Ok tt ->
     exists metric,
       metrics t !! "transducer_loss" = Some metric /\
       metrics (after (step batch t))
       = <["transducer_loss" := update_state metric (losses training t batch)]> (metrics t)) ->
  forall batches t metric,
    metrics t !! "transducer_loss" = Some metric ->
    outcome (steps step batches t) = Ok tt ->
    exists metric',
      metrics (after (steps step batches t)) !! "transducer_loss" = Some metric' /\
      mean_name metric' = mean_name metric /\
      mean_dtype metric' = mean_dtype metric /\
      mean_total metric' = (mean_total metric + Qc_sum (losses_seen training step t batches))%Qc /\
      mean_count metric' =
        (mean_count metric
         + Q2Qc (inject_Z (Z.of_nat (length (losses_seen training step t batches)))))%Qc.
Proof.
  intros Hstep batches.
  induction batches as [| b bs IH]; intros t metric Hk Hok.
  - exists metric. cbn [steps losses_seen ret after length Qc_sum fold_right].
    repeat split; try assumption; try reflexivity.
    + ring.
    + change (Q2Qc (inject_Z (Z.of_nat 0))) with 0%Qc. ring.
  - cbn [steps] in Hok |- *.
    destruct (bind_returns _ _ _ _ Hok) as ([] & Hb & Hrest & Hafter).
    rewrite Hafter.
    destruct (Hstep t b Hb) as (metric0 & Hk0 & Hupd).
    rewrite Hk in Hk0. injection Hk0 as <-.
    assert (Hk1 : metrics (after (step b t)) !! "transducer_loss"
                  = Some (update_state metric (losses training t b)))
      by (rewrite Hupd; apply lookup_insert_eq).
    destruct (IH _ _ Hk1 Hrest) as (metric' & Hk' & Hn & Hd & Ht & Hc).
    exists metric'. cbn [losses_seen].
    rewrite Qc_sum_app, Qc_of_length_app.
    cbn [update_state mean_name mean_dtype mean_total mean_count] in Hn, Hd, Ht, Hc.
    repeat split; try assumption.
    + rewrite Ht. ring.
    + rewrite Hc. ring.
Qed.




(** ** Beyond the claims: frames, failures and the order of effects *)

Ltac open_batch batch :=
  destruct batch as [[[[[paths features] input_length] labels] label_length] pred_inp].

Ltac open_trainer t :=
  destruct t as [b f mixed tm em mo oo].

(** X1: whatever happens in it, the train step leaves the base trainer's
    attributes, the featurizer, the mixed-precision flag and the eval metrics
    as they were, and of a model only the values of the trainable variables
    can change: its layers and its time reduction factor stay. *)
Theorem train_step_frame (t : Trainer) (batch : Batch) :
  let r := _train_step batch t in
  base (after r) = base t /\
  text_featurizer (after r) = text_featurizer t /\
  is_mixed_precision (after r) = is_mixed_precision t /\
  eval_metrics (after r) = eval_metrics t /\
  match model t with
  | Some m => exists values, model (after r) = Some (assign_variables m values)
  | None => model (after r) = None
  end.
Proof.
  open_batch batch. open_trainer t. cbv zeta. run.
  destruct mo as [[l factor variables] |]; branches.
  all: repeat split.
  all: try (eexists; reflexivity).
  all: exists variables; reflexivity.
Qed.




(** X4: on a trainer that was never compiled, both steps end with the
    [AttributeError] for [model], call no collaborator - the train step only
    opens and closes its tape - and leave the trainer as it was. *)
Theorem steps_before_compile (t : Trainer) (batch : Batch) :
  model t = None ->
  _train_step batch t =
    {| outcome := Raise (AttributeError "model"); after := t;
       made := [GradientTape_enter; GradientTape_exit] |} /\
  _eval_step batch t =
    {| outcome := Raise (AttributeError "model"); after := t; made := [] |}.
Proof.
  open_batch batch. intros Hm.
  split; along ltac:(rewrite ?Hm); reflexivity.
Qed.

(** X5: under mixed precision with an optimizer that is not a
    [LossScaleOptimizer], the train step runs the forward pass and then ends
    with the [AttributeError] for [get_scaled_loss]: the tape is closed, no
    gradient is taken or applied, no metric is updated, and the trainer is as
    it was. *)
Theorem mixed_precision_needs_loss_scaling
    (t : Trainer) (batch : Batch) (m : Transducer) (opt : KerasOptimizer)
    (logits : Tensor) (per_train_loss : list Tracked) :
  is_mixed_precision t = true ->
  optimizer t = Some (Keras opt) ->
  model t = Some m ->
  model_call (layers m) (trainable_variables m) (features_of batch, pred_inp_of batch) true
    = Ok logits ->
  rnnt_loss logits (labels_of batch) (label_length_of batch)
    (floordiv (input_length_of batch) (time_reduction_factor m))
    (blank (text_featurizer t)) = Ok per_train_loss ->
  _train_step batch t =
    {| outcome := Raise (AttributeError "get_scaled_loss");
       after := t;
       made :=
         [GradientTape_enter;
          model_call_ (features_of batch, pred_inp_of batch) true;
          tape_watch_ logits;
          rnnt_loss_ logits (labels_of batch) (label_length_of batch)
            (floordiv (input_length_of batch) (time_reduction_factor m))
            (blank (text_featurizer t));
          compute_average_loss_ per_train_loss (global_batch_size (base t));
          GradientTape_exit] |}.
Proof.
  open_batch batch. reduce. intros Hmix Ho Hm Hc Hl.
  along ltac:(rewrite ?Hm, ?Hc, ?Hl, ?Hmix, ?Ho).
  reflexivity.
Qed.

(** On a trainer that is ready a step returns or ends with an exception of
    the framework, also when every call into the framework can raise. *)
Lemma ready_step_outcomes (t : Trainer) (batch : Batch) :
  ready t ->
  (outcome (_train_step_raising batch t) = Ok tt \/
   exists e, outcome (_train_step_raising batch t) = Raise (FromFramework e)) /\
  (outcome (_eval_step_raising batch t) = Ok tt \/
   exists e, outcome (_eval_step_raising batch t) = Raise (FromFramework e)).
Proof.
  intros ([m Hm] & [tmetric Htm] & [emetric Hem] & o & Ho & Hs).
  open_batch batch. open_trainer t.
  cbn [model optimizer is_mixed_precision train_metrics eval_metrics] in Hm, Htm, Hem, Ho, Hs.
  subst mo oo.
  split; run; branches.
  all: try (specialize (Hs eq_refl); discriminate).
  all: try congruence.
  all: first [left; reflexivity | right; eexists; reflexivity].
Qed.

(** X6: the two metric setters followed by [compile] make a trainer ready,
    whatever it was before, when the strategy's scope is entered,
    [model.summary] and [tf.keras.optimizers.get] return, the constructor of
    [LossScaleOptimizer] accepts the optimizer (under mixed precision), and
    creating the checkpoint manager returns and leaves the trainer's own
    attributes alone.  On the trainer so obtained no step can end with one of
    Python's own exceptions - no missing attribute, no missing key, no
    unbound local: a step returns or ends with what the framework raised. *)
Theorem compile_makes_ready
    (t : Trainer) (model_ : Transducer) (optimizer_ : OptimizerSpec) (max_to_keep : Z)
    (opt : KerasOptimizer) :
  tf_scope (strategy (base t)) = Ok tt ->
  tf_summary model_ 100 = Ok tt ->
  optimizers_get optimizer_ = Ok opt ->
  (is_mixed_precision t = true -> tf_LossScaleOptimizer (Keras opt) "dynamic" = Ok tt) ->
  (forall o t0,
     (create_checkpoint_manager max_to_keep model_ o t0).1 = Ok tt /\
     keeps_own_attributes t0 (create_checkpoint_manager max_to_keep model_ o t0).2) ->
  let with_metrics := after (set_eval_metrics (after (set_train_metrics t))) in
  let r := compile model_ optimizer_ max_to_keep with_metrics in
  outcome r = Ok tt /\
  ready (after r) /\
  forall batch,
    (outcome (_train_step_raising batch (after r)) = Ok tt \/
     exists e, outcome (_train_step_raising batch (after r)) = Raise (FromFramework e)) /\
    (outcome (_eval_step_raising batch (after r)) = Ok tt \/
     exists e, outcome (_eval_step_raising batch (after r)) = Raise (FromFramework e)).
Proof.
  intros Hscope Hsummary Hget Hwrap Hccm with_metrics r.
  assert (Hr : outcome r = Ok tt /\ ready (after r)).
  { subst r with_metrics. open_trainer t.
    cbn [base is_mixed_precision] in Hscope, Hwrap.
    along ltac:(rewrite ?Hscope, ?Hsummary, ?Hget).
    destruct mixed; reduce; rewrite ?(Hwrap eq_refl); reduce;
      cbv [with_optimizer with_model]; reduce.
    all: match goal with |- context [create_checkpoint_manager ?k ?m ?o ?s] =>
           destruct (Hccm o s) as (Hok & Hf & Hmix & Htm & Hem & Hmo & Hop);
           destruct (create_checkpoint_manager k m o s) as [res t'] end.
    all: cbn [fst snd text_featurizer is_mixed_precision train_metrics eval_metrics
              model optimizer] in Hok, Hf, Hmix, Htm, Hem, Hmo, Hop.
    all: reduce; split; [exact Hok |].
    all: unfold ready; rewrite Hmo, Htm, Hem, Hop, Hmix.
    all: split; [eexists; reflexivity |].
    all: split; [eexists; apply lookup_singleton_eq |].
    all: split; [eexists; apply lookup_singleton_eq |].
    all: eexists; split; [reflexivity |].
    - intros _. reflexivity.
    - intros H. discriminate H. }
  destruct Hr as [Hok Hready].
  split; [exact Hok |]. split; [exact Hready |].
  intros batch. apply ready_step_outcomes. exact Hready.
Qed.

(** X7: [compile] ends with the first exception raised inside the
    strategy's scope, and what was stored before it stays.  If entering the
    scope raises, nothing is stored.  If [model.summary] raises, the model is
    already stored and [tf.keras.optimizers.get] is not called.  If
    [tf.keras.optimizers.get] raises, the optimizer is untouched.  If the
    constructor of [LossScaleOptimizer] raises, the unwrapped optimizer is
    already stored.  In the last three cases the scope is left, and in none
    of the four is a checkpoint manager created. *)
Theorem compile_ends_with_first_failure
    (t : Trainer) (model_ : Transducer) (optimizer_ : OptimizerSpec) (max_to_keep : Z) :
  let r := compile model_ optimizer_ max_to_keep t in
  let enter := strategy_scope_enter (strategy (base t)) in
  let leave := strategy_scope_exit (strategy (base t)) in
  (forall e,
     tf_scope (strategy (base t)) = Raise e ->
     r = {| outcome := Raise (FromFramework e); after := t; made := [enter] |}) /\
  (forall e,
     tf_scope (strategy (base t)) = Ok tt ->
     tf_summary model_ 100 = Raise e ->
     r = {| outcome := Raise (FromFramework e);
            after := with_model (Some model_) t;
            made := [enter; model_summary_ 100; leave] |}) /\
  (forall e,
     tf_scope (strategy (base t)) = Ok tt ->
     tf_summary model_ 100 = Ok tt ->
     optimizers_get optimizer_ = Raise e ->
     r = {| outcome := Raise (FromFramework e);
            after := with_model (Some model_) t;
            made := [enter; model_summary_ 100; optimizers_get_ optimizer_; leave] |}) /\
  (forall opt e,
     tf_scope (strategy (base t)) = Ok tt ->
     tf_summary model_ 100 = Ok tt ->
     optimizers_get optimizer_ = Ok opt ->
     is_mixed_precision t = true ->
     tf_LossScaleOptimizer (Keras opt) "dynamic" = Raise e ->
     r = {| outcome := Raise (FromFramework e);
            after := with_optimizer (Some (Keras opt)) (with_model (Some model_) t);
            made := [enter; model_summary_ 100; optimizers_get_ optimizer_;
                     LossScaleOptimizer_ (Keras opt) "dynamic"; leave] |}).
Proof.
  cbv zeta. repeat apply conj.
  - intros e Hscope. along ltac:(rewrite ?Hscope). reflexivity.
  - intros e Hscope Hsummary. along ltac:(rewrite ?Hscope, ?Hsummary). reflexivity.
  - intros e Hscope Hsummary Hget.
    along ltac:(rewrite ?Hscope, ?Hsummary, ?Hget). reflexivity.
  - intros opt e Hscope Hsummary Hget Hmixed Hwrap.
    along ltac:(rewrite ?Hscope, ?Hsummary, ?Hget, ?Hmixed, ?Hwrap). reflexivity.
Qed.

(** What [closes_tape] checks, spelled out. *)
Lemma closes_tape_split (cs : list Call) :
  closes_tape cs = true ->
  exists forward backward,
    cs = (forward ++ GradientTape_exit :: backward)%list /\
    forallb recorded_on_tape forward = true /\
    forallb follows_tape backward = true.
Proof.
  induction cs as [| c rest IH]; cbn [closes_tape]; [discriminate |].
  intros H.
  destruct c; try discriminate H.
  1: { exists [], rest. repeat split. exact H. }
  all: cbn [recorded_on_tape andb] in H; destruct (IH H) as (fw & bw & -> & Hf & Hb).
  all: eexists (_ :: _), _; split; [reflexivity |].
  all: split; [cbn [forallb recorded_on_tape andb]; exact Hf | exact Hb].
Qed.

(** X8: in every run of the train step, however it ends, the tape is opened
    first and closed exactly once; between the two lie only calls of the
    forward pass (model, watch, loss kernel, average, loss scaling), and after
    the tape is closed only calls of the backward pass and the update
    (gradient, unscaling, apply_gradients, the train metric). *)
Theorem train_step_tape_discipline (t : Trainer) (batch : Batch) :
  exists forward backward,
    made (_train_step batch t)
    = (GradientTape_enter :: forward ++ GradientTape_exit :: backward)%list /\
    forallb recorded_on_tape forward = true /\
    forallb follows_tape backward = true.
Proof.
  assert (H : tape_discipline (made (_train_step batch t)) = true).
  { open_batch batch. open_trainer t. run. branches; reflexivity. }
  destruct (made (_train_step batch t)) as [| c rest]; [discriminate H |].
  destruct c; try discriminate H.
  cbn [tape_discipline] in H.
  destruct (closes_tape_split rest H) as (fw & bw & -> & Hf & Hb).
  exists fw, bw. repeat split; assumption.
Qed.

(** X9: in one run, however it ends, the train step calls the model, the
    loss kernel, [apply_gradients] and [update_state] at most once each, and
    the eval step calls the model, the loss kernel and [update_state] at most
    once each and [apply_gradients] never. *)
Theorem steps_call_at_most_once (t : Trainer) (batch : Batch) :
  let train := made (_train_step batch t) in
  let eval := made (_eval_step batch t) in
  (length (model_calls train) <= 1)%nat /\
  (length (rnnt_loss_calls train) <= 1)%nat /\
  (length (applied_gradients train) <= 1)%nat /\
  (length (metric_updates train) <= 1)%nat /\
  (length (model_calls eval) <= 1)%nat /\
  (length (rnnt_loss_calls eval) <= 1)%nat /\
  applied_gradients eval = [] /\
  (length (metric_updates eval) <= 1)%nat.
Proof.
  open_batch batch. open_trainer t. cbv zeta.
  repeat apply conj.
  all: run; branches.
  all: cbn [model_calls rnnt_loss_calls applied_gradients metric_updates flat_map app length].
  all: first [reflexivity | lia].
Qed.

(** X10: the eval step reads neither the optimizer, nor the mixed-precision
    flag, nor the train metrics: changing them changes neither how it ends,
    nor its calls, nor the eval metrics it leaves.  The train step does not
    read the eval metrics: with other eval metrics it ends the same way,
    makes the same calls and leaves the same trainer, up to those metrics. *)
Theorem steps_read_only_their_own
    (t : Trainer) (batch : Batch) (o : option (Optimizer KerasOptimizer)) (mixed : bool)
    (metrics : gmap string Mean) :
  let t_eval := with_optimizer o (with_is_mixed_precision mixed (with_train_metrics metrics t)) in
  let t_train := with_eval_metrics metrics t in
  outcome (_eval_step batch t_eval) = outcome (_eval_step batch t) /\
  made (_eval_step batch t_eval) = made (_eval_step batch t) /\
  eval_metrics (after (_eval_step batch t_eval)) = eval_metrics (after (_eval_step batch t)) /\
  outcome (_train_step batch t_train) = outcome (_train_step batch t) /\
  made (_train_step batch t_train) = made (_train_step batch t) /\
  after (_train_step batch t_train) = with_eval_metrics metrics (after (_train_step batch t)).
Proof.
  open_batch batch. destruct t as [b f mixed0 tm em mo oo]. cbv zeta.
  repeat apply conj.
  all: run; cbv [with_optimizer with_is_mixed_precision with_train_metrics with_eval_metrics];
       reduce; branches; reflexivity.
Qed.

(** X11: with a loss-scaling optimizer whose scale is not zero, the whole
    train step is the same with and without mixed precision: it ends the
    same way and leaves the same model, optimizer and metrics; only the flag
    itself tells the two trainers apart. *)
Theorem mixed_precision_step_agrees
    (t : Trainer) (batch : Batch) (inner : Optimizer KerasOptimizer) (policy : string)
    (scale : Qc) :
  optimizer t = Some (LossScaleOptimizer inner policy scale) ->
  scale <> 0%Qc ->
  let mixed := _train_step batch (with_is_mixed_precision true t) in
  let plain := _train_step batch (with_is_mixed_precision false t) in
  outcome mixed = outcome plain /\
  after mixed = with_is_mixed_precision true (after plain).
Proof.
  intros Ho Hs.
  open_batch batch. open_trainer t. cbn [optimizer] in Ho. subst oo.
  cbv zeta. run. cbv [with_is_mixed_precision]. reduce.
  rewrite ?unscaled_scaled_gradient by exact Hs.
  branches.
  all: rewrite ?unscaled_scaled_gradient in * by exact Hs.
  all: repeat match goal with
              | H1 : ?call = _, H2 : ?call = _ |- _ => rewrite H1 in H2
              end.
  all: simplify_eq.
  all: split; reflexivity.
Qed.

(** X12: the logit lengths computed from a batch: one per utterance; for a
    positive time reduction factor and input lengths that are not negative,
    each lies between zero and its input length, is zero exactly when the
    utterance is shorter than the factor, and a factor of one changes
    nothing. *)
Theorem logit_length_bounds (input_length : list Z) (factor : Z) :
  (0 < factor)%Z ->
  Forall (fun n => (0 <= n)%Z) input_length ->
  length (floordiv input_length factor) = length input_length /\
  Forall2 (fun n q => (0 <= q <= n)%Z /\ (q = 0 <-> n < factor)%Z)
          input_length (floordiv input_length factor) /\
  floordiv input_length 1 = input_length.
Proof.
  intros Hf Hn. unfold floordiv.
  split; [apply length_map |].
  split.
  - induction Hn as [| n rest Hn0 _ IH]; cbn [map]; constructor; [| exact IH].
    pose proof (floordiv_bounds n factor Hf) as Hb.
    assert (Hq : (0 <= n / factor)%Z) by (apply Z.div_pos; lia).
    split; [nia |].
    split; intros H.
    + rewrite H in Hb. lia.
    + apply Z.div_small. lia.
  - rewrite <- (List.map_id input_length) at 2.
    apply List.map_ext. intros n. apply Z.div_1_r.
Qed.

(** X13: a train step returns only on a trainer that was compiled and has
    the train metric, only when the model, the loss kernel and the optimizer
    all returned, and under mixed precision only with a loss-scaling
    optimizer; the variables and the optimizer it leaves are the ones
    [apply_gradients] returned. *)
Theorem returning_train_step (t : Trainer) (batch : Batch) :
  let r := _train_step batch t in
  outcome r = Ok tt ->
  exists m o metric logits per_train_loss new_values o',
    model t = Some m /\
    optimizer t = Some o /\
    (is_mixed_precision t = true -> scales_loss o = true) /\
    train_metrics t !! "transducer_loss" = Some metric /\
    model_call (layers m) (trainable_variables m) (features_of batch, pred_inp_of batch) true
      = Ok logits /\
    rnnt_loss logits (labels_of batch) (label_length_of batch)
      (floordiv (input_length_of batch) (time_reduction_factor m))
      (blank (text_featurizer t)) = Ok per_train_loss /\
    apply_gradients o (zip (step_gradients t o m per_train_loss) (trainable_variables m))
      = Ok (new_values, o') /\
    model (after r) = Some (assign_variables m new_values) /\
    optimizer (after r) = Some o'.
Proof.
  open_batch batch. open_trainer t. cbv zeta. run.
  branches; intros H; try discriminate.
  all: match goal with
       | Ha : apply_gradients _ _ = Ok ?p |- _ => destruct p as [new_values o']
       end.
  all: do 7 eexists.
  all: cbn [step_gradients is_mixed_precision base].
  all: repeat apply conj; try eassumption; try reflexivity.
  all: try (cbv beta iota; cbn [fst snd]; eassumption).
  all: intros; first [reflexivity | discriminate].
Qed.

(** The two writings of the steps agree: when the library computes what its
    documentation says and the time reduction factor is not zero, a step with
    every operation able to raise ends as the step above does, leaves the
    same trainer and makes the same calls, [//] apart. *)
Lemma raising_steps_agree (t : Trainer) (batch : Batch) :
  as_documented ->
  (forall m, model t = Some m -> time_reduction_factor m <> 0%Z) ->
  (outcome (_train_step_raising batch t) = outcome (_train_step batch t) /\
   after (_train_step_raising batch t) = after (_train_step batch t) /\
   without_floordiv (made (_train_step_raising batch t)) = made (_train_step batch t)) /\
  (outcome (_eval_step_raising batch t) = outcome (_eval_step batch t) /\
   after (_eval_step_raising batch t) = after (_eval_step batch t) /\
   without_floordiv (made (_eval_step_raising batch t)) = made (_eval_step batch t)).
Proof.
  intros (Hdiv & Hwatch & Havg & Hscaled & Hgrad & Hunscaled & Hupd) Hfactor.
  open_batch batch. open_trainer t. cbn [model] in Hfactor.
  destruct mo as [m |].
  - specialize (Hfactor m eq_refl).
    repeat apply conj.
    all: run.
    all: repeat first
           [ progress (reduce;
                       rewrite ?Hwatch, ?Havg, ?Hscaled, ?Hgrad, ?Hunscaled, ?Hupd,
                               ?(Hdiv _ _ Hfactor))
           | branch ].
    all: reflexivity.
  - repeat apply conj; reflexivity.
Qed.

End Properties.

(** ** The properties on the small instance *)

Import Sample.
Import Corners.

(** C1 on the sample trainer, under mixed precision, for the first batch. *)
Lemma train_step_pipeline_witness :
  let t := trainer true in
  let train_loss := compute_average_loss (losses1 41) 2 in
  let variables := trainable_variables network in
  let gradients :=
    get_unscaled_gradients initial_loss_scale
      (tape_gradient (get_scaled_loss initial_loss_scale train_loss) variables) in
  let r := _train_step batch1 t in
  outcome r = Ok tt /\
  made r =
    [GradientTape_enter;
     model_call_ (10, 30)%Z true;
     tape_watch_ 41%Z;
     rnnt_loss_ 41%Z 20%Z 2%Z [2; 2]%Z 0%Z;
     compute_average_loss_ (losses1 41) 2;
     get_scaled_loss_ train_loss;
     GradientTape_exit;
     tape_gradient_ (get_scaled_loss initial_loss_scale train_loss) variables;
     get_unscaled_gradients_
       (tape_gradient (get_scaled_loss initial_loss_scale train_loss) variables);
     apply_gradients_ (zip gradients variables);
     update_state_ TrainMetrics "transducer_loss" (map value (losses1 41))] /\
  model (after r) = Some (assign_variables network (descend gradients variables)) /\
  optimizer (after r) = optimizer t /\
  train_metrics (after r) =
    <["transducer_loss"%string := update_state metric (map value (losses1 41))]>
      (train_metrics t).
Proof.
  intros t train_loss variables gradients.
  refine (train_step_pipeline (trainer true) 0%Z 10%Z [9; 8]%Z 20%Z 2%Z 30%Z
           network (mixed_precision_LossScaleOptimizer (Keras 0%nat) "dynamic")
           (Keras 0%nat) "dynamic" initial_loss_scale 41%Z (losses1 41)
           (descend gradients variables)
           (mixed_precision_LossScaleOptimizer (Keras 0%nat) "dynamic") metric
           _ _ _ _ _ _ _).
  - reflexivity.
  - reflexivity.
  - intros _. reflexivity.
  - reflexivity.
  - reflexivity.
  - reflexivity.
  - reflexivity.
Defined.

(** C2 on the sample trainer: its loss scale, 2^15, is not zero. *)
Lemma loss_scaling_preserves_gradients_witness :
  let t := trainer true in
  applied_gradients (made (_train_step batch1 (with_is_mixed_precision true t)))
  = applied_gradients (made (_train_step batch1 (with_is_mixed_precision false t))) /\
  applied_gradients (made (_train_step batch1 (with_is_mixed_precision true t)))
  = [zip (tape_gradient (compute_average_loss (losses1 41) 2) (trainable_variables network))
         (trainable_variables network)].
Proof.
  intros t.
  assert (Hscale : initial_loss_scale <> 0%Qc) by (intros H; discriminate H).
  assert (Hopt : optimizer t = Some (LossScaleOptimizer (Keras 0%nat) "dynamic"
                                       initial_loss_scale)) by reflexivity.
  destruct (loss_scaling_preserves_gradients t batch1 (Keras 0%nat) "dynamic"
              initial_loss_scale Hopt Hscale) as [Hsame Hplain].
  split.
  - exact Hsame.
  - refine (Hplain network 41%Z (losses1 41) _ _ _); reflexivity.
Defined.

(** C3 on the sample trainer: the eval step returns on the first batch. *)
Lemma eval_step_frame_witness :
  let t := trainer false in
  let r := _eval_step batch1 t in
  model (after r) = model t /\
  optimizer (after r) = optimizer t /\
  after r = with_eval_metrics (eval_metrics (after r)) t /\
  Forall (fun c => touches_gradients c = false) (made r) /\
  exists m logits eval_loss metric,
    model t = Some m /\
    model_call (layers m) (trainable_variables m) (features_of batch1, pred_inp_of batch1) false
      = Ok logits /\
    rnnt_loss logits (labels_of batch1) (label_length_of batch1)
      (floordiv (input_length_of batch1) (time_reduction_factor m))
      (blank (text_featurizer t)) = Ok eval_loss /\
    eval_metrics t !! "transducer_loss"%string = Some metric /\
    made r =
      [model_call_ (features_of batch1, pred_inp_of batch1) false;
       rnnt_loss_ logits (labels_of batch1) (label_length_of batch1)
         (floordiv (input_length_of batch1) (time_reduction_factor m))
         (blank (text_featurizer t));
       update_state_ EvalMetrics "transducer_loss" (map value eval_loss)] /\
    eval_metrics (after r) =
      <["transducer_loss"%string := update_state metric (map value eval_loss)]>
        (eval_metrics t).
Proof.
  intros t r.
  destruct (eval_step_frame t batch1) as (Hmodel & Hopt & Hframe & Hgrad & _ & Hreturns).
  split; [exact Hmodel |]. split; [exact Hopt |]. split; [exact Hframe |].
  split; [exact Hgrad |].
  apply Hreturns. reflexivity.
Defined.

(** C4 on a trainer that has not been compiled yet, under mixed precision;
    the sample library accepts the model and the optimizer, and the sample
    base trainer leaves the optimizer alone. *)
Lemma compile_wraps_optimizer_witness :
  let t := bare true in
  let chosen := mixed_precision_LossScaleOptimizer (Keras 0%nat) "dynamic" in
  let r := compile network "adam" 10 t in
  (scales_loss chosen = true <-> is_mixed_precision t = true) /\
  outcome r = Ok tt /\
  after r = with_optimizer (Some chosen) (with_model (Some network) t) /\
  made r =
    [strategy_scope_enter tt;
     model_summary_ 100;
     optimizers_get_ "adam";
     LossScaleOptimizer_ (Keras 0%nat) "dynamic";
     strategy_scope_exit tt;
     create_checkpoint_manager_ 10 network chosen] /\
  optimizer (after r) = Some chosen.
Proof.
  intros t chosen r.
  assert (Hscope : tf_scope (strategy (base t)) = Ok tt) by reflexivity.
  assert (Hsummary : tf_summary network 100 = Ok tt) by reflexivity.
  assert (Hget : optimizers_get "adam" = Ok 0%nat) by reflexivity.
  assert (Hwrap : is_mixed_precision t = true ->
                  tf_LossScaleOptimizer (Keras 0%nat) "dynamic" = Ok tt)
    by (intros _; reflexivity).
  destruct (compile_wraps_optimizer t network "adam" 10%Z 0%nat Hscope Hsummary Hget Hwrap)
    as (Hiff & Hout & Hafter & Hmade & Hkeeps).
  split; [exact Hiff |]. split; [exact Hout |]. split; [exact Hafter |].
  split; [exact Hmade |].
  apply Hkeeps. intros t'. reflexivity.
Defined.

(** C5 on a trainer that is ready but whose model reports a time reduction
    factor of zero, so that [//] raises in the sample library. *)
Lemma steps_raise_what_calls_raise_witness :
  let t := degenerate in
  (forall x, outcome (_train_step_raising batch1 t) = Raise x <->
             exists e, x = FromFramework e /\
                       Exists (fun c => raised t c = Some e)
                              (made (_train_step_raising batch1 t))) /\
  (forall x, outcome (_eval_step_raising batch1 t) = Raise x <->
             exists e, x = FromFramework e /\
                       Exists (fun c => raised t c = Some e)
                              (made (_eval_step_raising batch1 t))).
Proof.
  intros t.
  apply (steps_raise_what_calls_raise t batch1).
  unfold ready.
  split; [eexists; reflexivity |].
  split; [exists metric; reflexivity |].
  split; [exists metric; reflexivity |].
  exists (Keras 0%nat).
  split; [reflexivity | intros H; discriminate H].
Defined.


(** C8 on the sample trainer: input lengths 9 and 8, factor 4. *)
Lemma logit_length_is_floor_witness :
  let t := trainer false in
  let factor := 4%Z in
  let logit_length := floordiv (input_length_of batch1) factor in
  Forall (fun c => c.1.2 = logit_length) (rnnt_loss_calls (made (_train_step batch1 t))) /\
  Forall (fun c => c.1.2 = logit_length) (rnnt_loss_calls (made (_eval_step batch1 t))) /\
  rnnt_loss_calls (made (_train_step batch1 t)) = [(41, 20, 2, logit_length, 0)%Z] /\
  rnnt_loss_calls (made (_eval_step batch1 t)) = [(40, 20, 2, logit_length, 0)%Z] /\
  Forall2 (fun n q =>
             (factor * q <= n < factor * (q + 1))%Z /\
             ((n mod factor <> 0)%Z -> (factor * q < n)%Z /\ q = (ceildiv n factor - 1)%Z))
          (input_length_of batch1) logit_length.
Proof.
  intros t factor logit_length.
  assert (Hmodel : model t = Some network) by reflexivity.
  assert (Hfactor : (0 < time_reduction_factor network)%Z) by reflexivity.
  destruct (logit_length_is_floor t batch1 network Hmodel Hfactor)
    as (Htrain & Heval & Htrain1 & Heval1 & Hfloor).
  split; [exact Htrain |]. split; [exact Heval |].
  split; [apply Htrain1; reflexivity |].
  split; [apply Heval1; reflexivity |].
  exact Hfloor.
Defined.

(** C9 on the sample trainer: logits 41 in training, 40 in evaluation. *)
Lemma steps_call_loss_alike_witness :
  let t := trainer true in
  model_calls (made (_train_step batch1 t)) = [(10, 30, true)%Z] /\
  model_calls (made (_eval_step batch1 t)) = [(10, 30, false)%Z] /\
  rnnt_loss_calls (made (_train_step batch1 t)) = [(41, 20, 2, [2; 2], 0)%Z] /\
  rnnt_loss_calls (made (_eval_step batch1 t)) = [(40, 20, 2, [2; 2], 0)%Z].
Proof.
  intros t.
  refine (steps_call_loss_alike t batch1 network 41%Z 40%Z _ _ _); reflexivity.
Defined.

(** C10 on the sample trainer, whose base methods all return. *)
Lemma fit_order_witness :
  let r := fit [batch1; batch2] None 1 (trainer false) in
  made r = [set_train_data_loader_ [batch1; batch2];
            set_eval_data_loader_ None 1;
            load_checkpoint_;
            run_] /\
  outcome r = Ok tt /\
  after r = trainer false.
Proof.
  intros r.
  destruct (fit_order (trainer false) [batch1; batch2] None 1%Z) as (_ & _ & Hall).
  apply Hall; reflexivity.
Defined.

(** A model that raises ends the train step with what it raised: the tape
    is left, nothing is applied, and the trainer is as it was. *)
Example model_failure_ends_step :
  let r := _train_step bad_batch (trainer true) in
  outcome r = Raise (FromFramework "features: negative") /\
  made r = [GradientTape_enter; model_call_ (-1, 32)%Z true; GradientTape_exit] /\
  after r = trainer true.
Proof. cbv zeta. split; [reflexivity |]. split; reflexivity. Qed.

(** ** The corner cases on the small instance *)



(** X4 on the sample trainer before [compile]. *)
Lemma steps_before_compile_witness :
  let t := bare false in
  _train_step batch1 t =
    {| outcome := Raise (AttributeError "model"); after := t;
       made := [GradientTape_enter; GradientTape_exit] |} /\
  _eval_step batch1 t =
    {| outcome := Raise (AttributeError "model"); after := t; made := [] |}.
Proof.
  intros t.
  assert (Hmodel : model t = None) by reflexivity.
  exact (steps_before_compile t batch1 Hmodel).
Defined.

(** X5 on the sample trainer with the flag switched on after [compile]. *)
Lemma mixed_precision_needs_loss_scaling_witness :
  let t := Corners.unwrapped in
  _train_step batch1 t =
    {| outcome := Raise (AttributeError "get_scaled_loss");
       after := t;
       made :=
         [GradientTape_enter;
          model_call_ (10, 30)%Z true;
          tape_watch_ 41%Z;
          rnnt_loss_ 41%Z 20%Z 2%Z [2; 2]%Z 0%Z;
          compute_average_loss_ (losses1 41) 2;
          GradientTape_exit] |}.
Proof.
  intros t.
  refine (mixed_precision_needs_loss_scaling t batch1 network 0%nat 41%Z (losses1 41)
            _ _ _ _ _); reflexivity.
Defined.

(** X6 on the sample trainer before [compile], under mixed precision: the
    sample library accepts the model and the optimizer, and the sample base
    trainer creates the checkpoint manager without touching the trainer. *)
Lemma compile_makes_ready_witness :
  let t := after (set_eval_metrics (after (set_train_metrics (bare true)))) in
  let r := compile network "adam" 10 t in
  outcome r = Ok tt /\
  ready (after r) /\
  forall batch,
    (outcome (_train_step_raising batch (after r)) = Ok tt \/
     exists e, outcome (_train_step_raising batch (after r)) = Raise (FromFramework e)) /\
    (outcome (_eval_step_raising batch (after r)) = Ok tt \/
     exists e, outcome (_eval_step_raising batch (after r)) = Raise (FromFramework e)).
Proof.
  intros t r.
  assert (Hscope : tf_scope (strategy (base (bare true))) = Ok tt) by reflexivity.
  assert (Hsummary : tf_summary network 100 = Ok tt) by reflexivity.
  assert (Hget : optimizers_get "adam" = Ok 0%nat) by reflexivity.
  assert (Hwrap : is_mixed_precision (bare true) = true ->
                  tf_LossScaleOptimizer (Keras 0%nat) "dynamic" = Ok tt)
    by (intros _; reflexivity).
  assert (Hmanager : forall o t0,
             (create_checkpoint_manager 10 network o t0).1 = Ok tt /\
             keeps_own_attributes t0 (create_checkpoint_manager 10 network o t0).2).
  { intros o t0. split; [reflexivity |]. unfold keeps_own_attributes.
    split; [reflexivity |]. split; [reflexivity |]. split; [reflexivity |].
    split; [reflexivity |]. split; reflexivity. }
  exact (compile_makes_ready (bare true) network "adam" 10%Z 0%nat
           Hscope Hsummary Hget Hwrap Hmanager).
Defined.

(** X7 with collaborators that know only "adam" and "sgd": a model that was
    never built stops [compile] at [summary], "rmsprop" stops it at
    [tf.keras.optimizers.get], and under mixed precision "sgd" stops it at
    the constructor of [LossScaleOptimizer], with the unwrapped optimizer
    left on the trainer. *)
Lemma compile_ends_with_first_failure_witness :
  let t := bare true in
  compile (C := strict) unbuilt "adam" 10 t =
    {| outcome := Raise (FromFramework "This model has not yet been built");
       after := with_model (Some unbuilt) t;
       made := [strategy_scope_enter tt; model_summary_ 100; strategy_scope_exit tt] |} /\
  compile (C := strict) network "rmsprop" 10 t =
    {| outcome := Raise (FromFramework "Unknown optimizer");
       after := with_model (Some network) t;
       made := [strategy_scope_enter tt; model_summary_ 100; optimizers_get_ "rmsprop";
                strategy_scope_exit tt] |} /\
  compile (C := strict) network "sgd" 10 t =
    {| outcome := Raise (FromFramework "LossScaleOptimizer does not support this optimizer");
       after := with_optimizer (Some (Keras 1%nat)) (with_model (Some network) t);
       made := [strategy_scope_enter tt; model_summary_ 100; optimizers_get_ "sgd";
                LossScaleOptimizer_ (Keras 1%nat) "dynamic"; strategy_scope_exit tt] |}.
Proof.
  intros t.
  assert (Hscope : tf_scope (strategy (Collaborators := strict) (base t)) = Ok tt)
    by reflexivity.
  destruct (compile_ends_with_first_failure (C := strict) t unbuilt "adam" 10%Z)
    as (_ & Hunbuilt & _).
  destruct (compile_ends_with_first_failure (C := strict) t network "rmsprop" 10%Z)
    as (_ & _ & Hunknown & _).
  destruct (compile_ends_with_first_failure (C := strict) t network "sgd" 10%Z)
    as (_ & _ & _ & Hrefused).
  split; [| split].
  - apply Hunbuilt; [exact Hscope | reflexivity].
  - apply Hunknown; [exact Hscope | reflexivity | reflexivity].
  - apply (Hrefused 1%nat); [exact Hscope | reflexivity | reflexivity | reflexivity | reflexivity].
Defined.

(** X11 on the sample trainer, whose loss scale is 2^15. *)
Lemma mixed_precision_step_agrees_witness :
  let t := trainer true in
  let mixed := _train_step batch1 (with_is_mixed_precision true t) in
  let plain := _train_step batch1 (with_is_mixed_precision false t) in
  outcome mixed = outcome plain /\
  after mixed = with_is_mixed_precision true (after plain).
Proof.
  intros t.
  assert (Hscale : initial_loss_scale <> 0%Qc) by (intros H; discriminate H).
  assert (Hopt : optimizer t = Some (LossScaleOptimizer (Keras 0%nat) "dynamic"
                                       initial_loss_scale)) by reflexivity.
  exact (mixed_precision_step_agrees t batch1 (Keras 0%nat) "dynamic" initial_loss_scale
           Hopt Hscale).
Defined.

(** X12 for utterances of 9, 8, 3 and 0 frames and a factor of 4. *)
Lemma logit_length_bounds_witness :
  let input_length := [9; 8; 3; 0]%Z in
  length (floordiv input_length 4) = length input_length /\
  Forall2 (fun n q => (0 <= q <= n)%Z /\ (q = 0 <-> n < 4)%Z)
          input_length (floordiv input_length 4) /\
  floordiv input_length 1 = input_length.
Proof.
  intros input_length.
  assert (Hfactor : (0 < 4)%Z) by reflexivity.
  assert (Hlengths : Forall (fun n => (0 <= n)%Z) input_length).
  { repeat constructor; discriminate. }
  exact (logit_length_bounds input_length 4%Z Hfactor Hlengths).
Defined.

(** X13 on the sample trainer, where the train step returns. *)
Lemma returning_train_step_witness :
  let t := trainer true in
  let r := _train_step batch1 t in
  exists m o metric logits per_train_loss new_values o',
    model t = Some m /\
    optimizer t = Some o /\
    (is_mixed_precision t = true -> scales_loss o = true) /\
    train_metrics t !! "transducer_loss"%string = Some metric /\
    model_call (layers m) (trainable_variables m) (features_of batch1, pred_inp_of batch1) true
      = Ok logits /\
    rnnt_loss logits (labels_of batch1) (label_length_of batch1)
      (floordiv (input_length_of batch1) (time_reduction_factor m))
      (blank (text_featurizer t)) = Ok per_train_loss /\
    apply_gradients o (zip (step_gradients t o m per_train_loss) (trainable_variables m))
      = Ok (new_values, o') /\
    model (after r) = Some (assign_variables m new_values) /\
    optimizer (after r) = Some o'.
Proof.
  intros t r.
  assert (Hreturns : outcome (_train_step batch1 t) = Ok tt) by reflexivity.
  exact (returning_train_step t batch1 Hreturns).
Defined.

(** Without the train metric the step fails after the update: the model
    already has the variables the optimizer returned. *)
Example missing_metric_comes_after_update :
  let t := Corners.without_metrics false in
  let variables := trainable_variables network in
  let gradients := tape_gradient (compute_average_loss (losses1 41) 2) variables in
  let r := _train_step batch1 t in
  outcome r = Raise (KeyError "transducer_loss") /\
  model (after r) = Some (assign_variables network (descend gradients variables)) /\
  train_metrics (after r) = ∅.
Proof. cbv zeta. split; [reflexivity |]. split; reflexivity. Qed.

(** ** The float32 metric against the mean *)


(** A time reduction factor of zero ends the eval step at [//], with the
    exception of the framework, before the loss kernel is called. *)
Example zero_factor_ends_step :
  let r := _eval_step_raising batch1 degenerate in
  outcome r = Raise (FromFramework "Integer division by zero") /\
  made r = [model_call_ (10, 30)%Z false; floordiv_ [9; 8]%Z 0%Z] /\
  after r = degenerate.
Proof. cbv zeta. split; [reflexivity |]. split; reflexivity. Qed.
